(** * Fairness comparison tables of the conclusion notebook

    A shallow embedding of the code cell of
    [Conclusion/Conclusion_Fairness_Evaluation_Across_Models.ipynb]:
    the two pandas tables it builds (MovieLens and Yelp), the display
    formatting applied to the first one, the [replace] applied to the
    second one, and the notebook state those statements run in.

    Python floats are IEEE binary64 numbers ([spec_float] at precision 53);
    a pandas DataFrame is an index together with an ordered list of named
    columns; the notebook is a store of DataFrame objects, a variable
    environment and the list of outputs produced so far. *)

From Stdlib Require Import ZArith String Ascii List Reals Lra Lia.
From Stdlib Require Import Floats.SpecFloat.
From Stdlib Require Import DecimalString.
From Stdlib Require DecimalPos DecimalN.
From stdpp Require Import base gmap strings list.

Open Scope Z_scope.

(** ** Python values and exceptions *)

Module Py.

(** The exceptions the modelled statements can raise. *)
Inductive exn :=
| ValueError
| KeyError
| NameError.

Inductive result (A : Type) :=
| Ok (a : A)
| Raise (e : exn).
Arguments Ok {A} a.
Arguments Raise {A} e.

Definition bind {A B} (r : result A) (k : A -> result B) : result B :=
  match r with
  | Ok a => k a
  | Raise e => Raise e
  end.

(** The objects found in the cells of the two tables: numpy/Python floats
    and Python strings.  No other kind of object (integer, boolean,
    [None]) occurs in them, and frames are taken over these two kinds. *)
Inductive pyval :=
| PyFloat (x : spec_float)
| PyStr (s : string).

(** binary64 *)
Definition prec : Z := 53.
Definition emax : Z := 1024.

Definition float_of_Z (z : Z) : spec_float :=
  binary_normalize prec emax z 0 false.

(** A decimal literal [m / 10^k] such as [0.9738] (m = 9738, k = 4).
    Python reads it as the binary64 number nearest to the decimal value;
    for |m|, 10^k < 2^53 that is the correctly rounded quotient of the
    two exactly representable integers. *)
Definition float_lit (m : Z) (k : Z) : spec_float :=
  SFdiv prec emax (float_of_Z m) (float_of_Z (10 ^ k)).

Definition np_nan : pyval := PyFloat S754_nan.

Definition float_isnan (x : spec_float) : bool :=
  match x with
  | S754_nan => true
  | _ => false
  end.

Definition float_isfinite (x : spec_float) : bool :=
  match x with
  | S754_zero _ | S754_finite _ _ _ => true
  | _ => false
  end.

(** [pd.isna(x)] on a scalar cell. *)
Definition pd_isna (v : pyval) : bool :=
  match v with
  | PyFloat x => float_isnan x
  | PyStr _ => false
  end.

(** *** [f"{x:.4f}"] *)

Definition digit_char (d : Z) : ascii :=
  match d with
  | 0 => "0" | 1 => "1" | 2 => "2" | 3 => "3" | 4 => "4"
  | 5 => "5" | 6 => "6" | 7 => "7" | 8 => "8" | _ => "9"
  end%char.

(** Nearest integer to [num / den], ties to even ([0 <= num], [0 < den]). *)
Definition round_half_even (num den : Z) : Z :=
  let q := num / den in
  let r := num mod den in
  match 2 * r ?= den with
  | Lt => q
  | Gt => q + 1
  | Eq => if Z.even q then q else q + 1
  end.

(** [|x| * 10^4] rounded to an integer, for [|x| = m * 2^e]. *)
Definition scaled4 (m : positive) (e : Z) : Z :=
  if 0 <=? e then Z.pos m * 2 ^ e * 10000
  else round_half_even (Z.pos m * 10000) (2 ^ (- e)).

Definition sign_str (s : bool) : string := if s then "-" else EmptyString.

Definition int_digits (n : Z) : string :=
  NilZero.string_of_uint (N.to_uint (Z.to_N n)).

Definition frac4 (n : Z) : string :=
  String (digit_char (n / 1000 mod 10))
    (String (digit_char (n / 100 mod 10))
       (String (digit_char (n / 10 mod 10))
          (String (digit_char (n mod 10)) EmptyString))).

(** Fixed-point rendering with four digits after the point, correctly
    rounded from the exact binary value, as Python's float formatting
    does; the sign of a negative number is kept even when the digits
    round to zero. *)
Definition float_format_4f (x : spec_float) : string :=
  match x with
  | S754_nan => "nan"
  | S754_infinity s => sign_str s +:+ "inf"
  | S754_zero s => sign_str s +:+ "0" +:+ "." +:+ "0000"
  | S754_finite s m e =>
      let n := scaled4 m e in
      sign_str s +:+ int_digits (n / 10000) +:+ "." +:+ frac4 (n mod 10000)
  end.

(** The format specification [.4f] is not defined for [str]. *)
Definition format_4f (v : pyval) : result string :=
  match v with
  | PyFloat x => Ok (float_format_4f x)
  | PyStr _ => Raise ValueError
  end.

(** *** Shape of a rendered number *)

Definition is_digit (c : ascii) : bool :=
  match c with
  | "0" | "1" | "2" | "3" | "4" | "5" | "6" | "7" | "8" | "9" => true
  | _ => false
  end%char.

Fixpoint all_digits (s : string) : bool :=
  match s with
  | EmptyString => true
  | String c s' => is_digit c && all_digits s'
  end.

(** Splits at the first decimal point. *)
Fixpoint split_point (s : string) : option (string * string) :=
  match s with
  | EmptyString => None
  | String c s' =>
      if Ascii.eqb c "." then Some (EmptyString, s')
      else match split_point s' with
           | Some (ip, fp) => Some (String c ip, fp)
           | None => None
           end
  end.

Definition strip_sign (s : string) : string :=
  match s with
  | String c s' => if Ascii.eqb c "-" then s' else s
  | EmptyString => s
  end.

(** An optional minus sign, one or more digits, a point, four digits. *)
Definition is_4dp (s : string) : bool :=
  match split_point (strip_sign s) with
  | Some (ip, fp) =>
      negb (String.eqb ip EmptyString) && all_digits ip
      && Nat.eqb (String.length fp) 4 && all_digits fp
  | None => false
  end.

End Py.
Import Py.

(** ** pandas DataFrames *)

Module Pandas.

(** The row index: the default [RangeIndex(0, stop)], or a named index
    made of the values of a former column. *)
Inductive pd_index :=
| RangeIndex (stop : nat)
| Index (name : string) (labels : list pyval).

(** Columns keep their order, as the insertion order of the dict the
    frame is built from. *)
Record DataFrame := mkDataFrame {
  index : pd_index;
  columns : list (string * list pyval)
}.

Definition index_size (i : pd_index) : nat :=
  match i with
  | RangeIndex n => n
  | Index _ ls => length ls
  end.

Definition column_names (df : DataFrame) : list string :=
  map fst (columns df).

Fixpoint get_column (c : string) (cols : list (string * list pyval))
  : option (list pyval) :=
  match cols with
  | [] => None
  | (k, v) :: rest => if String.eqb k c then Some v else get_column c rest
  end.

Definition drop_column (c : string) (cols : list (string * list pyval))
  : list (string * list pyval) :=
  List.filter (fun kv => negb (String.eqb (fst kv) c)) cols.

(** The cell in positional row [i] of column [c]. *)
Definition cell (df : DataFrame) (i : nat) (c : string) : option pyval :=
  match get_column c (columns df) with
  | Some v => v !! i
  | None => None
  end.

(** [pd.DataFrame({...})] from a dict of equally long lists. *)
Definition pd_DataFrame (data : list (string * list pyval))
  : result DataFrame :=
  match data with
  | [] => Ok (mkDataFrame (RangeIndex 0) [])
  | (_, v) :: rest =>
      if forallb (fun kv => Nat.eqb (length (snd kv)) (length v)) rest
      then Ok (mkDataFrame (RangeIndex (length v)) data)
      else Raise ValueError
  end.

(** [df.set_index(key)]: the column becomes the index and is dropped
    from the columns. *)
Definition set_index (key : string) (df : DataFrame) : result DataFrame :=
  match get_column key (columns df) with
  | Some v => Ok (mkDataFrame (Index key v) (drop_column key (columns df)))
  | None => Raise KeyError
  end.

Fixpoint map_cells (f : pyval -> result pyval) (l : list pyval)
  : result (list pyval) :=
  match l with
  | [] => Ok []
  | x :: xs =>
      Py.bind (f x) (fun y =>
      Py.bind (map_cells f xs) (fun ys => Ok (y :: ys)))
  end.

Fixpoint map_columns (f : pyval -> result pyval)
  (cols : list (string * list pyval))
  : result (list (string * list pyval)) :=
  match cols with
  | [] => Ok []
  | (k, v) :: rest =>
      Py.bind (map_cells f v) (fun v' =>
      Py.bind (map_columns f rest) (fun rest' => Ok ((k, v') :: rest')))
  end.

(** [df.applymap(func)]: a new frame with the same labels and [func]
    applied to every cell; an exception of [func] propagates. *)
Definition applymap (f : pyval -> result pyval) (df : DataFrame)
  : result DataFrame :=
  Py.bind (map_columns f (columns df)) (fun cols =>
  Ok (mkDataFrame (index df) cols)).

(** Python's [==] on cells. *)
Definition py_eq (a b : pyval) : bool :=
  match a, b with
  | PyFloat x, PyFloat y => SFeqb x y
  | PyStr s, PyStr t => String.eqb s t
  | _, _ => false
  end.

(** The cells [replace] selects: the missing ones when [to_replace] is
    itself missing, the equal ones otherwise. *)
Definition replace_mask (to_replace v : pyval) : bool :=
  if pd_isna to_replace then pd_isna v else py_eq v to_replace.

Definition replace_cell (to_replace value v : pyval) : pyval :=
  if replace_mask to_replace v then value else v.

(** [df.replace(to_replace, value)]: a new frame. *)
Definition replace (to_replace value : pyval) (df : DataFrame) : DataFrame :=
  mkDataFrame (index df)
    (map (fun kv => (fst kv, map (replace_cell to_replace value) (snd kv)))
         (columns df)).

(** [df.copy()] duplicates the data; as a value the copy is the frame. *)
Definition copy (df : DataFrame) : DataFrame :=
  mkDataFrame (index df) (columns df).

End Pandas.
Import Pandas.

(** ** The notebook state *)

Module Notebook.

Inductive output :=
| Stream (text : string)
| DisplayData (df : DataFrame).

(** DataFrame objects live in a store and variables hold references to
    them, so that in-place updates and aliasing are visible. *)
Record state := mkState {
  heap : list DataFrame;
  env : gmap string nat;
  outputs : list output
}.

Definition initial : state := mkState [] ∅ [].

Definition M (A : Type) : Type := state -> result (A * state).

Definition ret {A} (a : A) : M A := fun st => Ok (a, st).

Definition mbind {A B} (m : M A) (k : A -> M B) : M B :=
  fun st =>
    match m st with
    | Ok (a, st') => k a st'
    | Raise e => Raise e
    end.

Definition lift {A} (r : result A) : M A :=
  fun st =>
    match r with
    | Ok a => Ok (a, st)
    | Raise e => Raise e
    end.

(** A new object. *)
Definition alloc (d : DataFrame) : M nat :=
  fun st =>
    Ok (length (heap st),
        mkState (heap st ++ [d]) (env st) (outputs st)).

(** Reading through a reference; the name of a deleted or unbound
    object is a [NameError]. *)
Definition load (l : nat) : M DataFrame :=
  fun st =>
    match heap st !! l with
    | Some d => Ok (d, st)
    | None => Raise NameError
    end.

(** In-place update of the object behind a reference. *)
Definition store (l : nat) (d : DataFrame) : M unit :=
  fun st => Ok (tt, mkState (<[l := d]> (heap st)) (env st) (outputs st)).

(** [x = <object>] *)
Definition assign (x : string) (l : nat) : M unit :=
  fun st => Ok (tt, mkState (heap st) (<[x := l]> (env st)) (outputs st)).

Definition var (x : string) : M nat :=
  fun st =>
    match env st !! x with
    | Some l => Ok (l, st)
    | None => Raise NameError
    end.

Definition newline : string := String "010"%char EmptyString.

(** [print(s)] *)
Definition print (s : string) : M unit :=
  fun st =>
    Ok (tt, mkState (heap st) (env st)
              (outputs st ++ [Stream (s +:+ newline)])).

(** [display(x)] shows the frame as it is at that moment. *)
Definition display (l : nat) : M unit :=
  mbind (load l) (fun d st =>
    Ok (tt, mkState (heap st) (env st) (outputs st ++ [DisplayData d]))).

End Notebook.
Import Notebook.

Notation "'do' x <- m ;; k" := (mbind m (fun x => k))
  (at level 10, x name, m at level 99, k at level 200).
Notation "'run' m ;; k" := (mbind m (fun _ => k))
  (at level 10, m at level 99, k at level 200).

(** ** The code cell *)

(** A float literal of the source, written with its digits. *)
Definition fl (m k : Z) : pyval := PyFloat (float_lit m k).

Definition dash : pyval := PyStr "-".

(** *** MovieLens *)

(** The dict given to [pd.DataFrame] for the MovieLens table, with
    [np.nan] for the metrics that are missing. *)
Definition condensed_transposed_data : list (string * list pyval) :=
  [ ("Metric",
      [ PyStr "RMSE";
        PyStr "RMSE (Male)";
        PyStr "RMSE (Female)";
        PyStr "CFD (Gender)";
        PyStr "Consistency";
        PyStr "Stat. Parity (Gender, T=3.5)";
        PyStr "Rawlsian Exposure (Gender, T=3.5)";
        PyStr "Local Individual Fairness";
        PyStr "Calibration Error";
        PyStr "Disparate Impact Ratio";
        PyStr "Demographic Parity" ]);
    ("ItemKNN",
      [ fl 9738 4; fl 9634 4; fl 10031 4; fl 0798 4; fl 2520 4; fl 0154 4;
        fl 6690 4; fl 9491 4; fl 7588 4; fl 9775 4; fl 0154 4 ]);
    ("UserKNN",
      [ fl 10126 4; fl 9855 4; fl 10869 4; fl 0798 4; fl 2573 4; fl 0023 4;
        fl 5691 4; np_nan; np_nan; np_nan; np_nan ]);
    ("SVD++",
      [ fl 9287 4; fl 9139 4; fl 9699 4; fl 0799 4; fl 2580 4; fl 0118 4;
        fl 5488 4; np_nan; np_nan; np_nan; np_nan ]) ].

(** [lambda x: "-" if pd.isna(x) else f"{x:.4f}"] *)
Definition format_cell (x : pyval) : result pyval :=
  if pd_isna x then Ok (PyStr "-")
  else Py.bind (format_4f x) (fun s => Ok (PyStr s)).

(** [condensed_transposed = pd.DataFrame({...})] *)
Definition build_condensed_transposed : M unit :=
  do d <- lift (pd_DataFrame condensed_transposed_data) ;;
  do l <- alloc d ;;
  assign "condensed_transposed" l.

(** [condensed_transposed.set_index('Metric', inplace=True)]: the object
    the variable refers to is changed, no new object is made. *)
Definition set_index_inplace : M unit :=
  do l <- var "condensed_transposed" ;;
  do d <- load l ;;
  do d' <- lift (set_index "Metric" d) ;;
  store l d'.

(** [formatted_table = condensed_transposed.copy().applymap(lambda ...)] *)
Definition build_formatted_table : M unit :=
  do l <- var "condensed_transposed" ;;
  do d <- load l ;;
  do c <- alloc (copy d) ;;
  do dc <- load c ;;
  do d' <- lift (applymap format_cell dc) ;;
  do f <- alloc d' ;;
  assign "formatted_table" f.

Definition display_formatted_table : M unit :=
  run print (newline +:+ " Fairness Table (Movielens):") ;;
  do l <- var "formatted_table" ;;
  display l.

(** *** Yelp *)

Definition metrics : list pyval :=
  [ PyStr "RMSE"; PyStr "RMSE (Female)"; PyStr "RMSE (Male)";
    PyStr "RMSE (Unknown)";
    PyStr "Calibration Error"; PyStr "Local Individual Fairness";
    PyStr "Disparate Impact Ratio"; PyStr "Demographic Parity";
    PyStr "Counterfactual Difference"; PyStr "Consistency Score";
    PyStr "Statistical Parity"; PyStr "Rawlsian Min Exposure" ].

Definition svdpp : list pyval :=
  [ fl 10175 4; fl 10122 4; fl 9846 4; fl 10574 4; fl 7381 4; fl 2267 4;
    fl 10078 4; fl 0076 4; PyStr "-"; PyStr "-"; PyStr "-"; PyStr "-" ].

Definition itemknn : list pyval :=
  [ fl 1295 3; fl 12768 4; fl 13171 4; fl 13574 4; fl 8946 4; fl 2615 4;
    fl 10194 4; fl 0174 4; PyStr "-"; PyStr "-"; PyStr "-"; PyStr "-" ].

Definition userknn : list pyval :=
  [ fl 13022 4; fl 12729 4; fl 12726 4; fl 12959 4; fl 5593 4; PyStr "-";
    fl 10792 4; fl 0549 4; fl 0756 4; fl 297 3; fl 0678 4; fl 7407 4 ].

Definition fairness_yelp_data : list (string * list pyval) :=
  [ ("Metric", metrics);
    ("SVD++", svdpp);
    ("ItemKNN", itemknn);
    ("UserKNN", userknn) ].

(** [fairness_yelp = pd.DataFrame({...})] *)
Definition build_fairness_yelp : M unit :=
  do d <- lift (pd_DataFrame fairness_yelp_data) ;;
  do l <- alloc d ;;
  assign "fairness_yelp" l.

(** [fairness_yelp = fairness_yelp.replace(np.nan, "-")]: the variable is
    bound to the new frame [replace] returns. *)
Definition replace_fairness_yelp : M unit :=
  do l <- var "fairness_yelp" ;;
  do d <- load l ;;
  do r <- alloc (replace np_nan (PyStr "-") d) ;;
  assign "fairness_yelp" r.

Definition display_fairness_yelp : M unit :=
  run print (newline +:+ "Fairness Summary Table Across Models (Yelp):") ;;
  do l <- var "fairness_yelp" ;;
  display l.

(** The whole cell, statement after statement.  The state holds the
    DataFrame objects and the variables that refer to them: the four list
    assignments ([metrics], [svdpp], [itemknn], [userknn]) bind plain
    lists, which are the definitions above and not objects of the store,
    and the names [pd], [np] and [display] are taken to be bound, as they
    are once the import cell has run in a notebook.  A warning that a
    pandas version may write to the error stream is not an output of
    [print] or [display] and is not recorded. *)
Definition code_cell : M unit :=
  run build_condensed_transposed ;;
  run set_index_inplace ;;
  run build_formatted_table ;;
  run display_formatted_table ;;
  run build_fairness_yelp ;;
  run replace_fairness_yelp ;;
  display_fairness_yelp.

(** The frame a variable refers to in a state. *)
Definition frame_of (x : string) (st : state) : option DataFrame :=
  match env st !! x with
  | Some l => heap st !! l
  | None => None
  end.

(** The state after the cell has run ([None] if it raised). *)
Definition final_state : option state :=
  match code_cell initial with
  | Ok (_, st) => Some st
  | Raise _ => None
  end.

(** ** The narrative of the notebook *)

(** The first cell of the notebook, the markdown discussion of the results,
    line by line. *)
Definition discussion_markdown : list string :=
  [
    "# Fairness metrics comparison and discussion";
    EmptyString;
    "#### Comparison of fairness across datasets";
    EmptyString;
    "We evaluate the fairness of the recommendation models (**SVD++**, **UserKNN**, and **ItemKNN**) on two distinct datasets: **MovieLens** and **Yelp**, using a comprehensive set of fairness metrics. While both datasets support recommender system research, they differ in scope, structure, and granularity. Please see the results at the end of this Notebook.";
    EmptyString;
    "**Dataset differences**:";
    EmptyString;
    "- **MovieLens** is a structured dataset with explicit ratings, clear user demographics (gender, age, occupation), and consistent rating behavior, making it highly suitable for recommender system evaluation.";
    "- **Yelp** consists of unstructured reviews and business metadata, offering fewer user demographics. Additionally, the domain difference (movies vs. local businesses) may impact recommendation behavior and fairness interpretation.";
    "- For **Yelp**, fairness metrics were computed using only a subset of **50 users** due to **computational constraints**. Ideally, this analysis would include at least **500 users** for more robust results.";
    "- In practice, **e-commerce** platforms may be more comparable to MovieLens in terms of structure and item categorization, whereas Yelp represents a broader and more diverse set of user preferences and item types.";
    EmptyString;
    EmptyString;
    EmptyString;
    "#### Key metric observations";
    EmptyString;
    "| Metric                         | MovieLens Insights                                              | Yelp Insights                                                   |";
    "|-------------------------------|------------------------------------------------------------------|------------------------------------------------------------------|";
    "| **RMSE (Accuracy)**           | SVD++ is most accurate (0.9287); ItemKNN and UserKNN higher.     | Similar ranking, but overall higher RMSE (lower accuracy).       |";
    "| **Gender-Based RMSE**         | RMSE is consistently **higher for female users** across models, suggesting gender-based bias or data imbalance. | Gender split less detailed, but similar trend present.           |";
    "| **Counterfactual Difference** | All models sensitive to gender flips (~0.0798), reflecting potential fairness concerns. | Similar magnitude observed for UserKNN (0.0756).                 |";
    "| **Consistency**               | Highest for UserKNN and SVD++; ItemKNN slightly lower.           | UserKNN shows strong consistency (0.297), possibly due to domain diversity. |";
    "| **Statistical Parity**        | Fair exposure with low parity gaps (e.g., 0.0154 for ItemKNN).   | Parity slightly lower (e.g., 0.0678), suggesting balanced exposure. |";
    "| **Rawlsian Min Exposure**     | SVD++ ensures better exposure for lowest-represented group.      | UserKNN has stronger Rawlsian score (0.7407), indicating equitable coverage. |";
    "| **Local Individual Fairness** | ItemKNN scores high (0.9491), indicating minimal deviation between similar users. | SVD++ also strong (0.2267), despite complex domain.             |";
    "| **Calibration Error**         | Best for SVD++; ItemKNN higher error suggests over/underconfidence in predictions. | Similar trend.                                                  |";
    "| **Disparate Impact Ratio**    | Close to 1 across models, indicating fairness in exposure likelihood. | Stable and fair ratio across models (e.g., SVD++: 1.0078).       |";
    "| **Demographic Parity**        | Generally low (<0.02), showing fair recommendation distribution. | Consistent, with lowest parity gap from UserKNN (0.0549).        |";
    EmptyString;
    EmptyString;
    EmptyString;
    "### Discussion";
    EmptyString;
    "The MovieLens dataset proves to be more suitable for rigorous recommender system evaluation due to its well-structured format, the availability of explicit ratings, and comprehensive demographic features. These elements make it easier to analyze model behavior and interpret fairness outcomes systematically. In contrast, the Yelp dataset, which is based on unstructured review data and contains fewer demographic attributes, introduces additional complexity. The domain-specific behavior associated with Yelp, such as evaluating restaurants or services, leads to greater noise and variability in user interactions, which may obscure fairness patterns.";
    EmptyString;
    "A recurring theme across models and datasets is the impact of gender on fairness. Female users often appear to have fewer interactions or narrower rating distributions compared to male users. This can reduce the system's ability to learn robust user preferences, resulting in less accurate recommendations and lower exposure. These discrepancies are reflected in fairness metrics like RMSE, statistical parity, and disparate impact ratio, which tend to reveal slightly higher bias toward male users.";
    EmptyString;
    "The differences in scores between the datasets, especially in metrics like Local Individual Fairness, can be attributed to the nature of the domains themselves. MovieLens users engage with a shared and universal set of items/movies that are more broadly rated and consumed across user groups. This leads to more consistent behavior and better alignment between similar users. In contrast, Yelp users may vary significantly in the types of businesses they interact with, introducing sparsity and limiting the effectiveness of neighborhood-based models like KNN.";
    EmptyString;
    "Model design also plays a key role in observed fairness. SVD++, being a model-based approach, typically exhibits stronger calibration and consistency. It generalizes better in sparse conditions and avoids some of the pitfalls seen in neighbor-based methods. Meanwhile, memory-based models such as UserKNN and ItemKNN are more sensitive to the density and quality of historical data, which can negatively affect both fairness and accuracy in noisier datasets.";
    EmptyString;
    "One notable limitation in the Yelp evaluation is the sample size. Fairness metrics were calculated using only 50 users due to computational and time constraints. A larger sample, ideally 500 users or more, would be necessary for stronger statistical confidence and a more representative fairness assessment. This smaller scale likely contributes to higher variability in some metrics and limits the ability to generalize results.";
    EmptyString;
    "### Conclusion";
    EmptyString;
    "Among the three models, SVD++ demonstrates the best overall balance between predictive accuracy and fairness, performing consistently well across both datasets. ItemKNN shows strong performance in local individual fairness, especially in MovieLens, where user-item interactions are richer and more structured. In contrast, UserKNN yields the best consistency and Rawlsian exposure scores on Yelp, indicating its strength in treating similar users equitably and covering disadvantaged groups more evenly.";
    EmptyString;
    "Gender-related disparities persist across both datasets, reinforcing the importance of integrating fairness-aware design into recommendation pipelines. While all models exhibit some sensitivity to gender-based differences, the effects are most pronounced in sparse or demographically unbalanced data.";
    EmptyString;
    "Ultimately, the structure and richness of the dataset play a critical role in how fairness is expressed and measured. MovieLens, with its high-quality data and balanced design, is better suited for fairness research and recommendation system evaluation than Yelp. As fairness in machine learning continues to grow in importance, choosing the right dataset is just as crucial as choosing the right model."
  ]%string.

(** The second cell, the heading above the tables. *)
Definition results_heading : list string := [ "# Results across models" ]%string.

Inductive nb_cell :=
| Markdown (source : list string)
| Code (body : M unit).

(** [import pandas as pd] and [import numpy as np] bind module names only. *)
Definition imports : M unit := ret tt.

Definition notebook : list nb_cell :=
  [ Markdown discussion_markdown;
    Markdown results_heading;
    Code imports;
    Code code_cell ].

(** All markdown lines of the notebook, in order. *)
Definition markdown_lines (nb : list nb_cell) : list string :=
  flat_map (fun c => match c with Markdown ls => ls | Code _ => [] end) nb.

(** Whether [p] occurs in [s]. *)
Fixpoint contains (p s : string) : bool :=
  String.prefix p s ||
  match s with
  | EmptyString => false
  | String _ s' => contains p s'
  end.

(** ** Reading the tables *)

(** A cell that holds a metric value: a finite float. *)
Definition numeric (v : pyval) : bool :=
  match v with
  | PyFloat x => float_isfinite x
  | PyStr _ => false
  end.

(** A cell that shows a metric value: a string of the four-decimal shape. *)
Definition rendered_number (v : pyval) : bool :=
  match v with
  | PyStr s => is_4dp s
  | PyFloat _ => false
  end.

Definition models : list string := [ "ItemKNN"; "UserKNN"; "SVD++" ]%string.

(** The metric names of a table: its index when the metrics are the index
    (MovieLens), its [Metric] column otherwise (Yelp). *)
Definition metric_names (df : DataFrame) : list pyval :=
  match index df with
  | Index _ ls => ls
  | RangeIndex _ => default [] (get_column "Metric" (columns df))
  end.

Definition model_columns (df : DataFrame) : list string :=
  List.filter (fun c => negb (String.eqb c "Metric")) (column_names df).

Definition is_label (s : string) (v : pyval) : bool :=
  match v with
  | PyStr t => String.eqb s t
  | PyFloat _ => false
  end.

Fixpoint position (s : string) (l : list pyval) : option nat :=
  match l with
  | [] => None
  | v :: vs => if is_label s v then Some 0%nat else S <$> position s vs
  end.

(** The row that carries a metric. *)
Definition row_of (metric : string) (df : DataFrame) : option nat :=
  position metric (metric_names df).

(** The cell of a metric for a model. *)
Definition metric_value (df : DataFrame) (metric model : string)
  : option pyval :=
  match row_of metric df with
  | Some i => cell df i model
  | None => None
  end.

(** The tables shown by [display], in order. *)
Definition displayed_tables (st : state) : list DataFrame :=
  flat_map (fun o => match o with DisplayData d => [d] | Stream _ => [] end)
           (outputs st).

(** The frame a variable holds once the cell has run. *)
Definition final_frame (x : string) : option DataFrame :=
  match final_state with
  | Some st => frame_of x st
  | None => None
  end.

(** Python's [x <= y] and [x < y] on floats. *)
Definition float_le (x y : spec_float) : bool := SFleb x y.
Definition float_lt (x y : spec_float) : bool := SFltb x y.

(** A property checked on every cell of a frame, column after column. *)
Fixpoint forall_cells_from (P : nat -> pyval -> bool) (i : nat)
  (l : list pyval) : bool :=
  match l with
  | [] => true
  | x :: xs => P i x && forall_cells_from P (S i) xs
  end.

Definition forall_cells (P : nat -> string -> pyval -> bool)
  (df : DataFrame) : bool :=
  forallb (fun kv => forall_cells_from (fun i x => P i (fst kv) x) 0 (snd kv))
          (columns df).

(** ** The tables of the cell *)

(** The MovieLens table once [Metric] has become its index. *)
Definition condensed_transposed_frame : DataFrame :=
  mkDataFrame
    (Index "Metric" (default [] (get_column "Metric" condensed_transposed_data)))
    (drop_column "Metric" condensed_transposed_data).

(** The MovieLens table as the notebook shows it, from the output recorded
    with the cell. *)
Definition formatted_table_shown : DataFrame :=
  mkDataFrame
    (Index "Metric"
       [ PyStr "RMSE";
         PyStr "RMSE (Male)";
         PyStr "RMSE (Female)";
         PyStr "CFD (Gender)";
         PyStr "Consistency";
         PyStr "Stat. Parity (Gender, T=3.5)";
         PyStr "Rawlsian Exposure (Gender, T=3.5)";
         PyStr "Local Individual Fairness";
         PyStr "Calibration Error";
         PyStr "Disparate Impact Ratio";
         PyStr "Demographic Parity" ])
    [ ("ItemKNN",
        [ PyStr "0.9738"; PyStr "0.9634"; PyStr "1.0031"; PyStr "0.0798";
          PyStr "0.2520"; PyStr "0.0154"; PyStr "0.6690"; PyStr "0.9491";
          PyStr "0.7588"; PyStr "0.9775"; PyStr "0.0154" ]);
      ("UserKNN",
        [ PyStr "1.0126"; PyStr "0.9855"; PyStr "1.0869"; PyStr "0.0798";
          PyStr "0.2573"; PyStr "0.0023"; PyStr "0.5691"; PyStr "-";
          PyStr "-"; PyStr "-"; PyStr "-" ]);
      ("SVD++",
        [ PyStr "0.9287"; PyStr "0.9139"; PyStr "0.9699"; PyStr "0.0799";
          PyStr "0.2580"; PyStr "0.0118"; PyStr "0.5488"; PyStr "-";
          PyStr "-"; PyStr "-"; PyStr "-" ]) ].

(** The Yelp table as [pd.DataFrame] builds it. *)
Definition fairness_yelp_frame : DataFrame :=
  mkDataFrame (RangeIndex 12) fairness_yelp_data.

(** The statements before [formatted_table] is built, and those before
    [replace] is called. *)
Definition until_set_index : M unit :=
  run build_condensed_transposed ;;
  set_index_inplace.

Definition until_fairness_yelp_built : M unit :=
  run until_set_index ;;
  run build_formatted_table ;;
  run display_formatted_table ;;
  build_fairness_yelp.

Definition state_after (m : M unit) : option state :=
  match m initial with
  | Ok (_, st) => Some st
  | Raise _ => None
  end.

Definition is_dash (o : option pyval) : bool :=
  match o with
  | Some v => is_label "-" v
  | None => false
  end.

Definition float_one : spec_float := float_of_Z 1.
Definition float_zero : spec_float := S754_zero false.

(** ** Accuracy metric *)

Module Spec.

Local Open Scope R_scope.

(** Modelled from the spec: the Interaction Record of the data model;
    the notebooks that build the prediction tables are not part of the
    sources at hand. *)
Record InteractionRecord := mkRecord {
  user_id : nat;
  item_id : nat;
  true_rating : R;
  predicted_rating : R
}.

(** Modelled from the spec: the failure of a metric that is undefined on
    its input. *)
Inductive metric_error :=
| EmptyInputError.

(** Modelled from the spec: [(true - predicted)^2] of one record, and the
    mean of a list of reals. *)
Definition squared_error (r : InteractionRecord) : R :=
  (true_rating r - predicted_rating r) * (true_rating r - predicted_rating r).

Definition Rsum (l : list R) : R := fold_right Rplus 0 l.

Definition mean (l : list R) : R := Rsum l / INR (length l).

(** Modelled from the spec: RMSE, whose code lives in the model
    notebooks, which are not part of the sources at hand.  The root of
    the mean squared error over the full set; an empty set is an
    [EmptyInputError]. *)
Definition RMSE (records : list InteractionRecord) : metric_error + R :=
  match records with
  | [] => inl EmptyInputError
  | _ :: _ => inr (sqrt (mean (map squared_error records)))
  end.

End Spec.

(** ** Sampling and the report *)

Module SpecSampling.

Section Evaluation.

Local Open Scope R_scope.

(** Modelled from the spec: the users, the metric results of a run, the
    way a subset of a given size is drawn from the population and the
    computation of the metrics on a set of users.  The evaluation
    notebooks, which draw the sample of users and compute the fairness
    metrics on it, are not part of the sources at hand, and the spec does
    not say which users a sample holds. *)
Variable user : Type.
Variable MetricResult : Type.
Variable draw_sample : nat -> list user -> list user.
Variable compute_metrics : list user -> MetricResult.





End Evaluation.

End SpecSampling.

(** ** Shape of a frame and reading a rendered number back *)

(** Every column has as many cells as the index has rows. *)
Definition rectangular (df : DataFrame) : bool :=
  forallb (fun kv => Nat.eqb (length (snd kv)) (index_size (index df)))
          (columns df).

Definition is_float (v : pyval) : bool :=
  match v with
  | PyFloat _ => true
  | PyStr _ => false
  end.

Definition is_str (v : pyval) : bool :=
  match v with
  | PyStr _ => true
  | PyFloat _ => false
  end.

(** The number a string of decimal digits denotes. *)
Definition read_digits (s : string) : option N :=
  option_map N.of_uint (NilEmpty.uint_of_string s).

(** The sign and the number of ten-thousandths a string of the
    four-decimal shape denotes. *)
Definition read_4dp (s : string) : option (bool * Z) :=
  match split_point (strip_sign s) with
  | Some (ip, fp) =>
      match read_digits ip, read_digits fp with
      | Some a, Some b =>
          if Nat.eqb (String.length fp) 4
          then Some (String.prefix "-" s, Z.of_N a * 10000 + Z.of_N b)
          else None
      | _, _ => None
      end
  | None => None
  end.

(** The decimal digit [d] put in front of a numeral. *)
Definition digit_cons (d : Z) (u : Decimal.uint) : Decimal.uint :=
  match d with
  | 0 => Decimal.D0 u | 1 => Decimal.D1 u | 2 => Decimal.D2 u
  | 3 => Decimal.D3 u | 4 => Decimal.D4 u | 5 => Decimal.D5 u
  | 6 => Decimal.D6 u | 7 => Decimal.D7 u | 8 => Decimal.D8 u
  | _ => Decimal.D9 u
  end.

(** * Properties *)

(** ** Rendering of floats *)

Section Rendering.

Lemma is_digit_digit_char (d : Z) : is_digit (digit_char d) = true.
Proof.
  unfold digit_char.
  repeat match goal with
         | |- context [match ?x with _ => _ end] => destruct x
         end; reflexivity.
Qed.

Lemma all_digits_frac4 (n : Z) : all_digits (frac4 n) = true.
Proof.
  unfold frac4; simpl. rewrite !is_digit_digit_char. reflexivity.
Qed.

Lemma length_frac4 (n : Z) : String.length (frac4 n) = 4%nat.
Proof. reflexivity. Qed.

Lemma all_digits_uint (u : Decimal.uint) :
  all_digits (NilEmpty.string_of_uint u) = true.
Proof. induction u; simpl; auto. Qed.

Lemma all_digits_int_digits (n : Z) : all_digits (int_digits n) = true.
Proof.
  unfold int_digits, NilZero.string_of_uint.
  destruct (N.to_uint (Z.to_N n)) eqn:E; try reflexivity;
    rewrite <- E; apply all_digits_uint.
Qed.

Lemma int_digits_nonempty (n : Z) : int_digits n <> EmptyString.
Proof.
  unfold int_digits, NilZero.string_of_uint.
  destruct (N.to_uint (Z.to_N n)); simpl; discriminate.
Qed.

Lemma digit_not_point (c : ascii) : is_digit c = true -> Ascii.eqb c "." = false.
Proof.
  destruct c as [[] [] [] [] [] [] [] []]; simpl; intros H;
    first [ reflexivity | discriminate H ].
Qed.

Lemma digit_not_minus (c : ascii) : is_digit c = true -> Ascii.eqb c "-" = false.
Proof.
  destruct c as [[] [] [] [] [] [] [] []]; simpl; intros H;
    first [ reflexivity | discriminate H ].
Qed.

Lemma split_point_digits (ip fp : string) :
  all_digits ip = true ->
  split_point (ip +:+ "." +:+ fp) = Some (ip, fp).
Proof.
  induction ip as [|c ip IH]; simpl; intros H.
  - reflexivity.
  - apply andb_prop in H as [Hc Hip].
    rewrite (digit_not_point c Hc), (IH Hip). reflexivity.
Qed.

Lemma strip_sign_signed (s : bool) (ip rest : string) :
  ip <> EmptyString -> all_digits ip = true ->
  strip_sign (sign_str s +:+ ip +:+ rest) = ip +:+ rest.
Proof.
  intros Hne Hd. destruct s; simpl.
  - reflexivity.
  - destruct ip as [|c ip]; [congruence|]. simpl in *.
    apply andb_prop in Hd as [Hc _].
    rewrite (digit_not_minus c Hc). reflexivity.
Qed.

(** A sign, digits, a point and four digits have the four-decimal shape. *)
Lemma is_4dp_parts (s : bool) (ip fp : string) :
  ip <> EmptyString -> all_digits ip = true ->
  String.length fp = 4%nat -> all_digits fp = true ->
  is_4dp (sign_str s +:+ ip +:+ "." +:+ fp) = true.
Proof.
  intros Hne Hip Hlen Hfp. unfold is_4dp.
  rewrite strip_sign_signed by assumption.
  rewrite split_point_digits by assumption.
  rewrite Hip, Hlen, Hfp.
  destruct ip; [congruence | reflexivity].
Qed.

(** Every finite float is rendered in the four-decimal shape. *)
Lemma float_format_4f_shape (x : spec_float) :
  float_isfinite x = true -> is_4dp (float_format_4f x) = true.
Proof.
  destruct x as [s|s| |s m e]; simpl; try discriminate; intros _.
  - destruct s; reflexivity.
  - apply is_4dp_parts.
    + apply int_digits_nonempty.
    + apply all_digits_int_digits.
    + apply length_frac4.
    + apply all_digits_frac4.
Qed.

(** No float other than NaN is rendered as a lone dash; NaN itself would
    be rendered as [nan]. *)
Lemma float_format_4f_not_dash (x : spec_float) :
  float_format_4f x <> "-"%string.
Proof.
  destruct x as [s|s| |s m e].
  - destruct s; discriminate.
  - destruct s; discriminate.
  - discriminate.
  - intros H.
    pose proof (float_format_4f_shape (S754_finite s m e) eq_refl) as Hs.
    rewrite H in Hs. discriminate Hs.
Qed.

End Rendering.

(** ** Frames under [applymap] and [replace] *)

Section Frames.

Lemma map_cells_lookup (f : pyval -> result pyval) (l l' : list pyval) :
  map_cells f l = Ok l' ->
  forall i x, l !! i = Some x -> exists y, f x = Ok y /\ l' !! i = Some y.
Proof.
  revert l'. induction l as [|a l IH]; intros l' H i x Hi.
  - destruct i; discriminate Hi.
  - simpl in H. destruct (f a) as [b|] eqn:Ha; [|discriminate H].
    simpl in H. destruct (map_cells f l) as [ys|] eqn:Hl; [|discriminate H].
    injection H as <-.
    destruct i as [|i]; simpl in *.
    + injection Hi as <-. eauto.
    + eapply IH; eauto.
Qed.

Lemma map_cells_length (f : pyval -> result pyval) (l l' : list pyval) :
  map_cells f l = Ok l' -> length l' = length l.
Proof.
  revert l'. induction l as [|a l IH]; intros l' H; simpl in H.
  - injection H as <-. reflexivity.
  - destruct (f a); [|discriminate H]. simpl in H.
    destruct (map_cells f l) eqn:Hl; [|discriminate H].
    injection H as <-. simpl. f_equal. apply IH. reflexivity.
Qed.

Lemma map_columns_names f cols cols' :
  map_columns f cols = Ok cols' -> map fst cols' = map fst cols.
Proof.
  revert cols'. induction cols as [|[k v] cols IH]; intros cols' H; simpl in H.
  - injection H as <-. reflexivity.
  - destruct (map_cells f v); [|discriminate H]. simpl in H.
    destruct (map_columns f cols) eqn:Hc; [|discriminate H].
    injection H as <-. simpl. f_equal. apply IH. reflexivity.
Qed.

Lemma map_columns_get f cols cols' c v :
  map_columns f cols = Ok cols' ->
  get_column c cols = Some v ->
  exists v', get_column c cols' = Some v' /\ map_cells f v = Ok v'.
Proof.
  revert cols'. induction cols as [|[k w] cols IH]; intros cols' H Hg;
    simpl in H, Hg.
  - discriminate Hg.
  - destruct (map_cells f w) as [w'|] eqn:Hw; [|discriminate H]. simpl in H.
    destruct (map_columns f cols) as [rest|] eqn:Hc; [|discriminate H].
    injection H as <-. simpl.
    destruct (String.eqb k c).
    + injection Hg as <-. eauto.
    + eapply IH; eauto.
Qed.

(** [applymap] keeps the index and the column labels. *)
Lemma applymap_labels f df df' :
  applymap f df = Ok df' ->
  index df' = index df /\ column_names df' = column_names df.
Proof.
  unfold applymap, column_names. intros H.
  destruct (map_columns f (columns df)) as [cols|] eqn:Hc; [|discriminate H].
  injection H as <-. simpl. split; [reflexivity|].
  eapply map_columns_names; eauto.
Qed.

(** [applymap] puts [f x] where [x] was. *)
Lemma applymap_cell f df df' i c x :
  applymap f df = Ok df' ->
  cell df i c = Some x ->
  exists y, f x = Ok y /\ cell df' i c = Some y.
Proof.
  unfold applymap, cell. intros H Hx.
  destruct (map_columns f (columns df)) as [cols|] eqn:Hc; [|discriminate H].
  injection H as <-. simpl.
  destruct (get_column c (columns df)) as [v|] eqn:Hg; [|discriminate Hx].
  destruct (map_columns_get _ _ _ _ _ Hc Hg) as (v' & -> & Hv').
  eapply map_cells_lookup; eauto.
Qed.

Lemma replace_get a b cols c :
  get_column c
    (map (fun kv : string * list pyval =>
            (fst kv, map (replace_cell a b) (snd kv))) cols)
  = map (replace_cell a b) <$> get_column c cols.
Proof.
  induction cols as [|[k v] cols IH]; simpl; [reflexivity|].
  destruct (String.eqb k c); [reflexivity | apply IH].
Qed.

(** [replace] rewrites each cell on its own and keeps all labels. *)
Lemma replace_cell_at a b df i c :
  cell (replace a b df) i c = replace_cell a b <$> cell df i c.
Proof.
  unfold cell, replace; simpl. rewrite replace_get.
  destruct (get_column c (columns df)) as [v|]; simpl; [|reflexivity].
  apply list_lookup_fmap.
Qed.

Lemma replace_labels a b df :
  index (replace a b df) = index df /\
  column_names (replace a b df) = column_names df.
Proof.
  unfold replace, column_names; simpl. split; [reflexivity|].
  rewrite map_map. reflexivity.
Qed.

Lemma forall_cells_from_sound P n l :
  forall_cells_from P n l = true ->
  forall i x, l !! i = Some x -> P (n + i)%nat x = true.
Proof.
  revert n. induction l as [|a l IH]; intros n H i x Hi.
  - destruct i; discriminate Hi.
  - simpl in H. apply andb_prop in H as [Ha Hl].
    destruct i as [|i]; simpl in Hi.
    + injection Hi as <-. rewrite Nat.add_0_r. exact Ha.
    + replace (n + S i)%nat with (S n + i)%nat by lia. eapply IH; eauto.
Qed.

Lemma get_column_In c cols v :
  get_column c cols = Some v -> In (c, v) cols.
Proof.
  induction cols as [|[k w] cols IH]; simpl; [discriminate|].
  destruct (String.eqb k c) eqn:E.
  - apply String.eqb_eq in E as ->. intros [= ->]. left; reflexivity.
  - intros H. right. apply IH, H.
Qed.

(** A check that passes on the frame holds of each of its cells. *)
Lemma forall_cells_sound P df :
  forall_cells P df = true ->
  forall i c x, cell df i c = Some x -> P i c x = true.
Proof.
  unfold forall_cells, cell. intros H i c x Hx.
  destruct (get_column c (columns df)) as [v|] eqn:Hg; [|discriminate Hx].
  apply get_column_In in Hg.
  rewrite forallb_forall in H. specialize (H _ Hg). simpl in H.
  apply (forall_cells_from_sound _ _ _ H i x Hx).
Qed.

Lemma replace_column_id a b (v : list pyval) :
  forallb (fun x => negb (replace_mask a x)) v = true ->
  map (replace_cell a b) v = v.
Proof.
  induction v as [|x v IH]; simpl; [reflexivity|]. intros H.
  apply andb_prop in H as [Hx Hv]. unfold replace_cell at 1.
  destruct (replace_mask a x); [discriminate Hx|]. f_equal. apply IH, Hv.
Qed.

(** [replace] gives back an equal frame when no cell is selected. *)
Lemma replace_unselected a b df :
  forallb (fun kv : string * list pyval =>
             forallb (fun x => negb (replace_mask a x)) (snd kv))
          (columns df) = true ->
  replace a b df = df.
Proof.
  destruct df as [idx cols]. unfold replace; simpl. intros H. f_equal.
  induction cols as [|[k v] cols IH]; simpl in *; [reflexivity|].
  apply andb_prop in H as [Hv Hc].
  rewrite (replace_column_id _ _ _ Hv), (IH Hc). reflexivity.
Qed.

End Frames.

(** ** The store under the statements of the cell *)

Section Store.

Lemma copy_eq (d : DataFrame) : copy d = d.
Proof. destruct d; reflexivity. Qed.

Lemma is_dash_sound (o : option pyval) :
  is_dash o = true -> o = Some (PyStr "-").
Proof.
  destruct o as [[x|s]|]; unfold is_dash, is_label; try discriminate.
  intros H. apply String.eqb_eq in H as <-. reflexivity.
Qed.

(** Building [formatted_table] allocates two new frames, binds one new
    variable, and leaves every frame already in the store as it was. *)
Lemma build_formatted_table_runs (st : state) (l : nat) (d d' : DataFrame) :
  env st !! "condensed_transposed" = Some l ->
  heap st !! l = Some d ->
  applymap format_cell d = Ok d' ->
  build_formatted_table st
  = Ok (tt, mkState ((heap st ++ [copy d]) ++ [d'])
              (<["formatted_table" := S (length (heap st))]> (env st))
              (outputs st)).
Proof.
  intros He Hh Ha.
  unfold build_formatted_table, mbind, var, load, alloc, lift, assign.
  rewrite He, Hh. simpl.
  rewrite list_lookup_middle by reflexivity.
  rewrite copy_eq, Ha. simpl.
  rewrite length_app. simpl.
  replace (length (heap st) + 1)%nat with (S (length (heap st))) by lia.
  reflexivity.
Qed.

End Store.

(** ** The cell as a whole *)

Section Cell.

Lemma until_set_index_state :
  exists st,
    state_after until_set_index = Some st /\
    frame_of "condensed_transposed" st = Some condensed_transposed_frame.
Proof. eexists. split; vm_compute; reflexivity. Qed.

Lemma applymap_condensed_transposed :
  applymap format_cell condensed_transposed_frame = Ok formatted_table_shown.
Proof. vm_compute. reflexivity. Qed.

(** The three frames the variables hold when the cell has run. *)
Lemma final_frames :
  final_frame "condensed_transposed" = Some condensed_transposed_frame /\
  final_frame "formatted_table" = Some formatted_table_shown /\
  final_frame "fairness_yelp" = Some fairness_yelp_frame.
Proof. repeat split; vm_compute; reflexivity. Qed.

Lemma format_cell_nan (x : pyval) :
  pd_isna x = true -> format_cell x = Ok (PyStr "-").
Proof. unfold format_cell. intros ->. reflexivity. Qed.

Lemma format_cell_dash (x : pyval) :
  format_cell x = Ok (PyStr "-") -> pd_isna x = true.
Proof.
  unfold format_cell. destruct (pd_isna x) eqn:E; [reflexivity|].
  destruct x as [f|s]; simpl; [|discriminate].
  intros [= H]. exfalso. exact (float_format_4f_not_dash f H).
Qed.

Lemma format_cell_numeric (x : pyval) :
  numeric x = true ->
  exists s, format_cell x = Ok (PyStr s) /\ is_4dp s = true.
Proof.
  destruct x as [f|s]; simpl; [|discriminate]. intros Hf.
  exists (float_format_4f f). split.
  - unfold format_cell. destruct f; try discriminate Hf; reflexivity.
  - apply float_format_4f_shape, Hf.
Qed.

End Cell.

(** ** The claims *)

(** Distinctness of the entries of an explicit list. *)
Ltac solve_nodup :=
  repeat (constructor;
          [ rewrite ?not_elem_of_cons; repeat split;
            first [ discriminate | apply not_elem_of_nil ] | ]);
  constructor.

(** C1.  In a table formatted for display, every cell whose value is the
    missing-value sentinel [np.nan] is shown as the string ["-"]: it is
    not turned into the number zero, nor into the rendering of zero, and
    no row or column is removed.  This holds of the display formatting of
    the MovieLens table ([applymap]) and of the [replace] applied to the
    Yelp table alike. *)
Theorem C1_not_applicable_shown_as_dash
  (df df' : DataFrame) (i : nat) (c : string) (x : pyval) :
  applymap format_cell df = Ok df' ->
  cell df i c = Some x ->
  pd_isna x = true ->
  (cell df' i c = Some (PyStr "-")
   /\ (forall s, cell df' i c <> Some (PyFloat (S754_zero s)))
   /\ cell df' i c <> Some (PyStr "0.0000")
   /\ index df' = index df
   /\ column_names df' = column_names df)
  /\
  (cell (replace np_nan (PyStr "-") df) i c = Some (PyStr "-")
   /\ index (replace np_nan (PyStr "-") df) = index df
   /\ column_names (replace np_nan (PyStr "-") df) = column_names df).
Proof.
  intros Ha Hc Hx. split.
  - destruct (applymap_cell _ _ _ _ _ _ Ha Hc) as (y & Hy & Hc').
    rewrite (format_cell_nan x Hx) in Hy. injection Hy as <-.
    destruct (applymap_labels _ _ _ Ha) as [Hi Hn].
    rewrite Hc'. repeat split; try assumption; try discriminate.
  - rewrite replace_cell_at, Hc. simpl.
    unfold replace_cell, replace_mask. simpl. rewrite Hx.
    destruct (replace_labels np_nan (PyStr "-") df) as [Hi Hn].
    repeat split; assumption.
Qed.

Lemma C1_witness :
  cell formatted_table_shown 7 "UserKNN" = Some (PyStr "-")
  /\ cell condensed_transposed_frame 7 "UserKNN" = Some np_nan
  /\ index formatted_table_shown = index condensed_transposed_frame.
Proof.
  pose proof (C1_not_applicable_shown_as_dash
                condensed_transposed_frame formatted_table_shown
                7 "UserKNN" np_nan
                applymap_condensed_transposed eq_refl eq_refl) as H.
  split; [exact (proj1 (proj1 H))|].
  split; [reflexivity|].
  exact (proj1 (proj2 (proj2 (proj2 (proj1 H))))).
Defined.

(** C8.  The display formatting gives ["-"] for a cell exactly when the
    cell is NaN.  Every cell that holds a number is shown as a string with
    four digits after the decimal point, which is never ["-"]; and the
    MovieLens table holds nothing but numbers and NaN, so all of it is
    formatted, into the table the notebook shows. *)
Theorem C8_dash_iff_nan :
  (forall x : pyval, format_cell x = Ok (PyStr "-") <-> pd_isna x = true)
  /\ (forall x : pyval, numeric x = true ->
        exists s, format_cell x = Ok (PyStr s)
                  /\ is_4dp s = true /\ s <> "-"%string)
  /\ (forall i c x, cell condensed_transposed_frame i c = Some x ->
        numeric x = true \/ pd_isna x = true)
  /\ applymap format_cell condensed_transposed_frame = Ok formatted_table_shown.
Proof.
  split; [|split; [|split]].
  - intros x. split; [apply format_cell_dash | apply format_cell_nan].
  - intros x Hx. destruct (format_cell_numeric x Hx) as (s & Hs & H4).
    exists s. repeat split; try assumption.
    intros ->. discriminate H4.
  - intros i c x Hc.
    apply (forall_cells_sound (fun _ _ v => numeric v || pd_isna v)) in Hc;
      [|vm_compute; reflexivity].
    apply orb_prop in Hc. exact Hc.
  - apply applymap_condensed_transposed.
Qed.

Lemma C8_witness :
  (exists s, format_cell (fl 9738 4) = Ok (PyStr s)
             /\ is_4dp s = true /\ s <> "-"%string)
  /\ pd_isna np_nan = true.
Proof.
  split.
  - apply (proj1 (proj2 C8_dash_iff_nan) (fl 9738 4)). vm_compute. reflexivity.
  - apply (proj1 (proj1 C8_dash_iff_nan np_nan)). reflexivity.
Defined.

(** C9.  Building [formatted_table] leaves the numeric MovieLens table as
    it was.  From any state in which [condensed_transposed] refers to a
    frame that can be formatted, the statement runs, the variable still
    refers to the same object, that object and every other frame of the
    store are unchanged, and [formatted_table] is bound to a new object.
    In the cell, the frame is the one obtained after [set_index], with a
    number or NaN in every cell, and it is still that frame at the end. *)
Theorem C9_formatting_leaves_source_unchanged :
  (forall (st : state) (l : nat) (d d' : DataFrame),
      env st !! "condensed_transposed" = Some l ->
      heap st !! l = Some d ->
      applymap format_cell d = Ok d' ->
      exists st',
        build_formatted_table st = Ok (tt, st')
        /\ env st' !! "condensed_transposed" = Some l
        /\ heap st' !! l = Some d
        /\ (forall k o, heap st !! k = Some o -> heap st' !! k = Some o)
        /\ frame_of "condensed_transposed" st' = Some d
        /\ (exists f, env st' !! "formatted_table" = Some f /\ f <> l
                      /\ heap st' !! f = Some d'))
  /\ (exists st0,
        state_after until_set_index = Some st0
        /\ frame_of "condensed_transposed" st0 = Some condensed_transposed_frame
        /\ final_frame "condensed_transposed" = Some condensed_transposed_frame
        /\ forall i c x, cell condensed_transposed_frame i c = Some x ->
                         numeric x = true \/ pd_isna x = true).
Proof.
  split.
  - intros st l d d' He Hh Ha.
    eexists. split; [apply (build_formatted_table_runs st l d d' He Hh Ha)|].
    simpl.
    assert (Hl : (l < length (heap st))%nat) by (eapply lookup_lt_Some; eauto).
    assert (Hkeep : forall k o, heap st !! k = Some o ->
                      ((heap st ++ [copy d]) ++ [d']) !! k = Some o).
    { intros k o Hk. apply lookup_app_l_Some, lookup_app_l_Some, Hk. }
    assert (Henv : <["formatted_table" := S (length (heap st))]> (env st)
                     !! "condensed_transposed" = Some l).
    { rewrite lookup_insert_ne by discriminate. exact He. }
    split; [exact Henv|].
    split; [apply Hkeep, Hh|].
    split; [exact Hkeep|].
    split; [unfold frame_of; simpl; rewrite Henv; apply Hkeep, Hh|].
    exists (S (length (heap st))).
    split; [apply lookup_insert_eq|].
    split; [lia|].
    rewrite lookup_app_r; rewrite length_app; simpl; [|lia].
    replace (S (length (heap st)) - (length (heap st) + 1))%nat
      with 0%nat by lia.
    reflexivity.
  - destruct until_set_index_state as (st0 & H0 & Hf).
    exists st0.
    split; [exact H0|]. split; [exact Hf|].
    split; [exact (proj1 final_frames)|].
    intros i c x Hc.
    apply (forall_cells_sound (fun _ _ v => numeric v || pd_isna v)) in Hc;
      [|vm_compute; reflexivity].
    apply orb_prop in Hc. exact Hc.
Qed.

Lemma C9_witness :
  exists st',
    build_formatted_table
      (mkState [condensed_transposed_frame]
               (<["condensed_transposed" := 0%nat]> ∅) [])
    = Ok (tt, st')
    /\ frame_of "condensed_transposed" st' = Some condensed_transposed_frame
    /\ frame_of "formatted_table" st' = Some formatted_table_shown.
Proof.
  assert (He0 : env (mkState [condensed_transposed_frame]
                       (<["condensed_transposed" := 0%nat]> ∅) [])
                  !! "condensed_transposed" = Some 0%nat)
    by (vm_compute; reflexivity).
  destruct (proj1 C9_formatting_leaves_source_unchanged
              (mkState [condensed_transposed_frame]
                       (<["condensed_transposed" := 0%nat]> ∅) [])
              0%nat condensed_transposed_frame formatted_table_shown
              He0 eq_refl applymap_condensed_transposed)
    as (st' & Hrun & He & Hh & Hk & Hf & f & Hfe & Hfl & Hfh).
  exists st'. split; [exact Hrun|]. split; [exact Hf|].
  unfold frame_of. rewrite Hfe. exact Hfh.
Defined.

(** C4.  Both tables keep every metric row and every model column when a
    metric exists for some models only.  In the MovieLens table a cell
    shows a number exactly where the source holds a number and ["-"]
    exactly where the source holds NaN; in the Yelp table the cells are
    the entries of the three score lists, each a number or ["-"].  The
    row of Local Individual Fairness is such a partly covered row in both
    tables. *)
Theorem C4_partial_coverage :
  (final_frame "condensed_transposed" = Some condensed_transposed_frame
   /\ final_frame "formatted_table" = Some formatted_table_shown
   /\ final_frame "fairness_yelp" = Some fairness_yelp_frame)
  /\ (index formatted_table_shown = index condensed_transposed_frame
      /\ column_names formatted_table_shown = models
      /\ index_size (index formatted_table_shown) = 11%nat
      /\ (forall i c, (i < 11)%nat -> In c models ->
            is_Some (cell formatted_table_shown i c))
      /\ (forall i c x, cell condensed_transposed_frame i c = Some x ->
            (numeric x = true
             /\ exists y, cell formatted_table_shown i c = Some y
                          /\ rendered_number y = true)
            \/ (pd_isna x = true
                /\ cell formatted_table_shown i c = Some (PyStr "-"))))
  /\ (model_columns fairness_yelp_frame = [ "SVD++"; "ItemKNN"; "UserKNN" ]%string
      /\ length (metric_names fairness_yelp_frame) = 12%nat
      /\ (forall i c, (i < 12)%nat -> In c models ->
            is_Some (cell fairness_yelp_frame i c))
      /\ (forall i x, svdpp !! i = Some x ->
            cell fairness_yelp_frame i "SVD++" = Some x)
      /\ (forall i x, itemknn !! i = Some x ->
            cell fairness_yelp_frame i "ItemKNN" = Some x)
      /\ (forall i x, userknn !! i = Some x ->
            cell fairness_yelp_frame i "UserKNN" = Some x)
      /\ (forall i c x, In c models -> cell fairness_yelp_frame i c = Some x ->
            numeric x = true \/ x = PyStr "-"))
  /\ (metric_value formatted_table_shown "Local Individual Fairness" "ItemKNN"
        = Some (PyStr "0.9491")
      /\ metric_value formatted_table_shown "Local Individual Fairness" "UserKNN"
        = Some (PyStr "-")
      /\ metric_value formatted_table_shown "Local Individual Fairness" "SVD++"
        = Some (PyStr "-")
      /\ metric_value fairness_yelp_frame "Local Individual Fairness" "SVD++"
        = Some (fl 2267 4)
      /\ metric_value fairness_yelp_frame "Local Individual Fairness" "ItemKNN"
        = Some (fl 2615 4)
      /\ metric_value fairness_yelp_frame "Local Individual Fairness" "UserKNN"
        = Some (PyStr "-")).
Proof.
  split; [exact final_frames|].
  split; [|split].
  - split; [reflexivity|]. split; [reflexivity|]. split; [reflexivity|].
    split.
    + intros i c Hi Hc. simpl in Hc.
      destruct Hc as [<-|[<-|[<-|[]]]];
        do 11 (destruct i as [|i]; [vm_compute; eauto|]); lia.
    + intros i c x Hc.
      apply (forall_cells_sound
               (fun i c v =>
                  (numeric v
                   && match cell formatted_table_shown i c with
                      | Some y => rendered_number y
                      | None => false
                      end)
                  || (pd_isna v && is_dash (cell formatted_table_shown i c))))
        in Hc; [|vm_compute; reflexivity].
      apply orb_prop in Hc as [H|H]; apply andb_prop in H as [H1 H2].
      * left. split; [exact H1|].
        destruct (cell formatted_table_shown i c) as [y|]; [|discriminate H2].
        exists y. split; [reflexivity | exact H2].
      * right. split; [exact H1 | apply is_dash_sound, H2].
  - split; [reflexivity|]. split; [reflexivity|].
    split; [|split; [|split; [|split]]].
    + intros i c Hi Hc. simpl in Hc.
      destruct Hc as [<-|[<-|[<-|[]]]];
        do 12 (destruct i as [|i]; [vm_compute; eauto|]); lia.
    + intros i x H. exact H.
    + intros i x H. exact H.
    + intros i x H. exact H.
    + intros i c x Hm Hc.
      apply (forall_cells_sound
               (fun _ c v =>
                  String.eqb c "Metric" || numeric v || is_dash (Some v)))
        in Hc; [|vm_compute; reflexivity].
      apply orb_prop in Hc as [Hc|Hc]; [apply orb_prop in Hc as [Hc|Hc]|].
      * apply String.eqb_eq in Hc as ->. simpl in Hm.
        destruct Hm as [?|[?|[?|[]]]]; discriminate.
      * left. exact Hc.
      * right. apply is_dash_sound in Hc. injection Hc as ->. reflexivity.
  - repeat split; vm_compute; reflexivity.
Qed.

Lemma C4_witness :
  (numeric (fl 9491 4) = true
   /\ exists y, cell formatted_table_shown 7 "ItemKNN" = Some y
                /\ rendered_number y = true)
  \/ (pd_isna (fl 9491 4) = true
      /\ cell formatted_table_shown 7 "ItemKNN" = Some (PyStr "-")).
Proof.
  apply (proj2 (proj2 (proj2 (proj2 (proj1 (proj2 C4_partial_coverage)))))
           7%nat "ItemKNN"%string (fl 9491 4)).
  reflexivity.
Defined.

(** C5.  Statistical parity and demographic parity are two rows of each
    displayed table, under two different names, and no metric name occurs
    twice.  In the MovieLens table the two rows are both there although
    ItemKNN has the same value, 0.0154, in both. *)
Theorem C5_parity_metrics_reported_apart :
  exists st ml yelp,
    final_state = Some st
    /\ displayed_tables st = [ml; yelp]
    /\ row_of "Stat. Parity (Gender, T=3.5)" ml = Some 5%nat
    /\ row_of "Demographic Parity" ml = Some 10%nat
    /\ row_of "Statistical Parity" yelp = Some 10%nat
    /\ row_of "Demographic Parity" yelp = Some 7%nat
    /\ NoDup (metric_names ml)
    /\ NoDup (metric_names yelp)
    /\ metric_value ml "Stat. Parity (Gender, T=3.5)" "ItemKNN"
       = Some (PyStr "0.0154")
    /\ metric_value ml "Demographic Parity" "ItemKNN" = Some (PyStr "0.0154")
    /\ metric_value condensed_transposed_frame
         "Stat. Parity (Gender, T=3.5)" "ItemKNN"
       = metric_value condensed_transposed_frame "Demographic Parity" "ItemKNN"
    /\ (forall c, In c models ->
          is_Some (metric_value ml "Stat. Parity (Gender, T=3.5)" c)
          /\ is_Some (metric_value ml "Demographic Parity" c)
          /\ is_Some (metric_value yelp "Statistical Parity" c)
          /\ is_Some (metric_value yelp "Demographic Parity" c)).
Proof.
  eexists. exists formatted_table_shown, fairness_yelp_frame.
  split; [vm_compute; reflexivity|].
  split; [vm_compute; reflexivity|].
  do 4 (split; [reflexivity|]).
  split.
  { vm_compute. solve_nodup. }
  split.
  { vm_compute. solve_nodup. }
  do 3 (split; [vm_compute; reflexivity|]).
  intros c Hc. simpl in Hc.
  destruct Hc as [<-|[<-|[<-|[]]]]; repeat split; vm_compute; eauto.
Qed.

(** C2, as stated, fails: the Yelp table shows a Disparate Impact Ratio of
    1.0078 for SVD++, which is greater than 1. *)
Lemma C2_counterexample :
  ~ (forall st t c x,
       final_state = Some st ->
       In t (displayed_tables st) ->
       metric_value t "Disparate Impact Ratio" c = Some (PyFloat x) ->
       float_le x float_one = true).
Proof.
  intros H.
  destruct final_state as [st|] eqn:Hst; [|vm_compute in Hst; discriminate Hst].
  specialize (H st fairness_yelp_frame "SVD++"%string (float_lit 10078 4) eq_refl).
  assert (Hin : In fairness_yelp_frame (displayed_tables st)).
  { vm_compute in Hst. injection Hst as <-. vm_compute. right. left. reflexivity. }
  specialize (H Hin eq_refl). vm_compute in H. discriminate H.
Qed.

(** C2, amended.  The Disparate Impact Ratios held by the tables are
    positive numbers, but not all of them are at most 1: the one ratio of
    the MovieLens table (ItemKNN, 0.9775) lies in (0, 1], the other two
    MovieLens cells are NaN, and the three ratios of the Yelp table
    (1.0078, 1.0194, 1.0792) are greater than 1 and at most 1.08. *)
Theorem C2_reported_ratios :
  (final_frame "condensed_transposed" = Some condensed_transposed_frame
   /\ final_frame "fairness_yelp" = Some fairness_yelp_frame)
  /\ (forall c x,
        metric_value condensed_transposed_frame "Disparate Impact Ratio" c
        = Some (PyFloat x) ->
        float_isnan x = false ->
        float_lt float_zero x = true /\ float_le x float_one = true)
  /\ (forall c x,
        metric_value fairness_yelp_frame "Disparate Impact Ratio" c
        = Some (PyFloat x) ->
        float_lt float_one x = true /\ float_le x (float_lit 108 2) = true)
  /\ (metric_value condensed_transposed_frame "Disparate Impact Ratio" "ItemKNN"
      = Some (fl 9775 4)
      /\ metric_value condensed_transposed_frame "Disparate Impact Ratio" "UserKNN"
         = Some np_nan
      /\ metric_value condensed_transposed_frame "Disparate Impact Ratio" "SVD++"
         = Some np_nan
      /\ metric_value fairness_yelp_frame "Disparate Impact Ratio" "SVD++"
         = Some (fl 10078 4)
      /\ metric_value fairness_yelp_frame "Disparate Impact Ratio" "ItemKNN"
         = Some (fl 10194 4)
      /\ metric_value fairness_yelp_frame "Disparate Impact Ratio" "UserKNN"
         = Some (fl 10792 4)).
Proof.
  split; [split; apply final_frames|].
  split; [|split].
  - intros c x Hc Hn.
    change (cell condensed_transposed_frame 9 c = Some (PyFloat x)) in Hc.
    apply (forall_cells_sound
             (fun i _ v =>
                negb (Nat.eqb i 9)
                || match v with
                   | PyFloat y =>
                       float_isnan y
                       || (float_lt float_zero y && float_le y float_one)
                   | PyStr _ => true
                   end)) in Hc; [|vm_compute; reflexivity].
    simpl in Hc. rewrite Hn in Hc. simpl in Hc.
    apply andb_prop in Hc. exact Hc.
  - intros c x Hc.
    change (cell fairness_yelp_frame 6 c = Some (PyFloat x)) in Hc.
    apply (forall_cells_sound
             (fun i _ v =>
                negb (Nat.eqb i 6)
                || match v with
                   | PyFloat y =>
                       float_lt float_one y && float_le y (float_lit 108 2)
                   | PyStr _ => true
                   end)) in Hc; [|vm_compute; reflexivity].
    simpl in Hc. apply andb_prop in Hc. exact Hc.
  - repeat split; vm_compute; reflexivity.
Qed.

Lemma C2_witness :
  float_lt float_one (float_lit 10792 4) = true
  /\ float_le (float_lit 10792 4) (float_lit 108 2) = true.
Proof.
  apply (proj1 (proj2 (proj2 C2_reported_ratios)) "UserKNN"%string).
  vm_compute. reflexivity.
Defined.

(** C3, as stated, fails: the cell does not show one single table. *)
Lemma C3_counterexample :
  ~ (exists st t, final_state = Some st /\ displayed_tables st = [t]).
Proof.
  intros (st & t & Hst & Ht).
  vm_compute in Hst. injection Hst as <-.
  vm_compute in Ht. discriminate Ht.
Qed.

(** C3, amended.  The cell assembles the results into two comparison
    tables, one per dataset, each under its own title: the MovieLens table,
    indexed by metric name with one column per model, and the Yelp table,
    with a column of metric names and one column per model.  Each covers
    all three models, and no frame of the notebook holds the metrics of
    both datasets. *)
Theorem C3_one_table_per_dataset :
  exists st,
    final_state = Some st
    /\ outputs st
       = [ Stream (newline +:+ " Fairness Table (Movielens):" +:+ newline);
           DisplayData formatted_table_shown;
           Stream (newline +:+ "Fairness Summary Table Across Models (Yelp):"
                   +:+ newline);
           DisplayData fairness_yelp_frame ]
    /\ displayed_tables st = [ formatted_table_shown; fairness_yelp_frame ]
    /\ formatted_table_shown <> fairness_yelp_frame
    /\ (exists names, index formatted_table_shown = Index "Metric" names
                      /\ NoDup names /\ length names = 11%nat)
    /\ column_names formatted_table_shown = [ "ItemKNN"; "UserKNN"; "SVD++" ]%string
    /\ index fairness_yelp_frame = RangeIndex 12
    /\ column_names fairness_yelp_frame
       = [ "Metric"; "SVD++"; "ItemKNN"; "UserKNN" ]%string
    /\ NoDup (metric_names fairness_yelp_frame)
    /\ (forall d, In d (heap st) ->
          row_of "CFD (Gender)" d = None \/ row_of "RMSE (Unknown)" d = None).
Proof.
  eexists.
  split; [vm_compute; reflexivity|].
  split; [vm_compute; reflexivity|].
  split; [vm_compute; reflexivity|].
  split; [discriminate|].
  split.
  { eexists. split; [reflexivity|]. split; [solve_nodup | reflexivity]. }
  split; [reflexivity|]. split; [reflexivity|]. split; [reflexivity|].
  split; [vm_compute; solve_nodup|].
  intros d Hd. simpl in Hd.
  destruct Hd as [<-|[<-|[<-|[<-|[<-|[]]]]]];
    first [ left; vm_compute; reflexivity | right; vm_compute; reflexivity ].
Qed.

Lemma C3_witness :
  row_of "CFD (Gender)" fairness_yelp_frame = None
  \/ row_of "RMSE (Unknown)" fairness_yelp_frame = None.
Proof.
  destruct C3_one_table_per_dataset
    as (st & Hst & _ & _ & _ & _ & _ & _ & _ & _ & Hh).
  apply Hh.
  vm_compute in Hst. injection Hst as <-.
  simpl. do 3 right. left. reflexivity.
Defined.

Lemma C5_witness :
  exists st ml yelp,
    final_state = Some st
    /\ displayed_tables st = [ml; yelp]
    /\ is_Some (metric_value ml "Stat. Parity (Gender, T=3.5)" "SVD++")
    /\ is_Some (metric_value ml "Demographic Parity" "SVD++")
    /\ is_Some (metric_value yelp "Statistical Parity" "SVD++")
    /\ is_Some (metric_value yelp "Demographic Parity" "SVD++").
Proof.
  destruct C5_parity_metrics_reported_apart
    as (st & ml & yelp & Hst & Hd & _ & _ & _ & _ & _ & _ & _ & _ & _ & Hc).
  exists st, ml, yelp. split; [exact Hst|]. split; [exact Hd|].
  apply (Hc "SVD++"%string). simpl. right. right. left. reflexivity.
Defined.

(** C10.  The [replace] applied to the Yelp table changes nothing.  The
    frame built from the four lists has no NaN cell, each of its model
    cells is a number or already the string ["-"], so [replace] selects
    no cell and returns an equal frame; [fairness_yelp] holds the same
    table before and after the statement. *)
Theorem C10_replace_changes_nothing :
  pd_DataFrame fairness_yelp_data = Ok fairness_yelp_frame
  /\ replace np_nan (PyStr "-") fairness_yelp_frame = fairness_yelp_frame
  /\ (forall i c x, cell fairness_yelp_frame i c = Some x -> pd_isna x = false)
  /\ (forall i c x, In c models -> cell fairness_yelp_frame i c = Some x ->
         numeric x = false -> x = PyStr "-")
  /\ (exists st st',
         state_after until_fairness_yelp_built = Some st
         /\ replace_fairness_yelp st = Ok (tt, st')
         /\ frame_of "fairness_yelp" st = Some fairness_yelp_frame
         /\ frame_of "fairness_yelp" st' = Some fairness_yelp_frame
         /\ outputs st' = outputs st).
Proof.
  split; [reflexivity|].
  split; [apply replace_unselected; vm_compute; reflexivity|].
  split; [|split].
  - intros i c x Hc.
    apply (forall_cells_sound (fun _ _ v => negb (pd_isna v))) in Hc;
      [|vm_compute; reflexivity].
    apply negb_true_iff in Hc. exact Hc.
  - intros i c x Hm Hc Hn.
    apply (forall_cells_sound
             (fun _ c v =>
                String.eqb c "Metric" || numeric v || is_dash (Some v)))
      in Hc; [|vm_compute; reflexivity].
    apply orb_prop in Hc as [Hc|Hc]; [apply orb_prop in Hc as [Hc|Hc]|].
    + apply String.eqb_eq in Hc as ->. simpl in Hm.
      destruct Hm as [?|[?|[?|[]]]]; discriminate.
    + congruence.
    + apply is_dash_sound in Hc. injection Hc as ->. reflexivity.
  - eexists. eexists.
    split; [vm_compute; reflexivity|].
    split; [vm_compute; reflexivity|].
    repeat split; vm_compute; reflexivity.
Qed.

Lemma C10_witness :
  pd_isna (fl 10078 4) = false.
Proof.
  apply (proj1 (proj2 (proj2 C10_replace_changes_nothing))
           6%nat "SVD++"%string (fl 10078 4)).
  reflexivity.
Defined.

(** The narrative of the notebook gives the size of the sample the Yelp
    fairness metrics were computed on: its discussion names Yelp together
    with the subset of 50 users, and every line that speaks of a sample
    or of a subset gives that size. *)
Lemma narrative_gives_yelp_sample_size :
  (exists l, In l (markdown_lines notebook)
             /\ contains "Yelp" l = true
             /\ contains "subset of **50 users**" l = true)
  /\ (forall l, In l (markdown_lines notebook) ->
         contains "sample" l || contains "subset" l = true ->
         contains "50 users" l = true).
Proof.
  split.
  - exists (nth 10 discussion_markdown EmptyString).
    split; [|split; vm_compute; reflexivity].
    do 10 right. left. reflexivity.
  - intros l Hl Hs.
    assert (Hall : forallb
                     (fun l => implb (contains "sample" l || contains "subset" l)
                                     (contains "50 users" l))
                     (markdown_lines notebook) = true)
      by (vm_compute; reflexivity).
    rewrite forallb_forall in Hall. specialize (Hall l Hl).
    rewrite Hs in Hall. exact Hall.
Qed.



(** ** RMSE *)

Section Accuracy.

Import Spec.
Local Open Scope R_scope.

Lemma squared_error_nonneg (r : InteractionRecord) : 0 <= squared_error r.
Proof. unfold squared_error. apply Rle_0_sqr. Qed.

Lemma Rsum_squared_errors_nonneg (records : list InteractionRecord) :
  0 <= Rsum (map squared_error records).
Proof.
  induction records as [|r records IH]; simpl.
  - lra.
  - pose proof (squared_error_nonneg r). lra.
Qed.

Lemma mean_squared_error_nonneg (records : list InteractionRecord) :
  records <> [] -> 0 <= mean (map squared_error records).
Proof.
  intros Hne. unfold mean. rewrite length_map.
  assert (0 < INR (length records)).
  { destruct records; [congruence|]. apply lt_0_INR. simpl. lia. }
  apply Rmult_le_pos.
  - apply Rsum_squared_errors_nonneg.
  - left. apply Rinv_0_lt_compat. assumption.
Qed.

End Accuracy.

(** C6.  RMSE of an empty set of records fails with [EmptyInputError]; it
    does not return 0.  On a set that is not empty it returns the square
    root of the mean, over all the records, of the squared difference
    between true and predicted rating: a value that is not negative and
    whose square is the sum of the squared differences divided by the
    number of records. *)
Theorem C6_rmse (records : list Spec.InteractionRecord) :
  (Spec.RMSE [] = inl Spec.EmptyInputError
   /\ Spec.RMSE [] <> inr 0%R)
  /\ (records <> [] ->
      Spec.RMSE records
      = inr (sqrt (Spec.mean (map Spec.squared_error records)))
      /\ exists v : R,
           Spec.RMSE records = inr v
           /\ (0 <= v)%R
           /\ (v * v
               = Spec.Rsum (map Spec.squared_error records)
                 / INR (length records))%R).
Proof.
  split; [split; [reflexivity | discriminate]|].
  intros Hne.
  assert (Hr : Spec.RMSE records
               = inr (sqrt (Spec.mean (map Spec.squared_error records)))).
  { destruct records; [congruence | reflexivity]. }
  split; [exact Hr|].
  exists (sqrt (Spec.mean (map Spec.squared_error records))).
  split; [exact Hr|]. split.
  - apply sqrt_pos.
  - rewrite sqrt_sqrt by (apply mean_squared_error_nonneg, Hne).
    unfold Spec.mean. rewrite length_map. reflexivity.
Qed.

Lemma C6_witness :
  exists v : R,
    Spec.RMSE [ Spec.mkRecord 1 1 4 (38 / 10); Spec.mkRecord 2 1 2 (25 / 10) ]
    = inr v
    /\ (0 <= v)%R
    /\ (v * v = 145 / 1000)%R.
Proof.
  destruct (proj2 (C6_rmse
                     [ Spec.mkRecord 1 1 4 (38 / 10);
                       Spec.mkRecord 2 1 2 (25 / 10) ])
              ltac:(discriminate))
    as (_ & v & Hv & Hpos & Hsq).
  exists v. split; [exact Hv|]. split; [exact Hpos|].
  rewrite Hsq. unfold Spec.Rsum, Spec.squared_error. simpl. lra.
Defined.


(** * Further properties of the operations *)

(** ** Building and reshaping frames *)

Section Shape.

Lemma get_column_drop_same key cols :
  get_column key (drop_column key cols) = None.
Proof.
  induction cols as [|[k v] cols IH]; simpl; [reflexivity|].
  destruct (String.eqb k key) eqn:E; simpl; [exact IH|].
  rewrite E. exact IH.
Qed.

Lemma get_column_drop_other key c cols :
  c <> key -> get_column c (drop_column key cols) = get_column c cols.
Proof.
  intros Hne. induction cols as [|[k v] cols IH]; simpl; [reflexivity|].
  destruct (String.eqb k key) eqn:E; simpl.
  - apply String.eqb_eq in E as ->.
    destruct (String.eqb key c) eqn:E'; [|exact IH].
    apply String.eqb_eq in E'. congruence.
  - destruct (String.eqb k c); [reflexivity | exact IH].
Qed.

Lemma get_column_None_names c cols :
  get_column c cols = None -> ~ In c (map fst cols).
Proof.
  induction cols as [|[k v] cols IH]; simpl; [tauto|].
  destruct (String.eqb k c) eqn:E; [discriminate|].
  intros H [Hk|Hin]; [|exact (IH H Hin)].
  subst k. rewrite String.eqb_refl in E. discriminate E.
Qed.

Lemma rectangular_columns idx idx' cols cols' :
  index_size idx' = index_size idx ->
  (forall kv, In kv cols' ->
     exists kv', In kv' cols /\ length (snd kv) = length (snd kv')) ->
  rectangular (mkDataFrame idx cols) = true ->
  rectangular (mkDataFrame idx' cols') = true.
Proof.
  unfold rectangular; simpl. intros Hs Hsub H.
  rewrite forallb_forall in *. intros kv Hkv.
  destruct (Hsub kv Hkv) as (kv' & Hin & Hlen).
  specialize (H kv' Hin). rewrite Hs, Hlen. exact H.
Qed.

Lemma map_columns_In f cols cols' kv :
  map_columns f cols = Ok cols' -> In kv cols' ->
  exists kv', In kv' cols /\ length (snd kv) = length (snd kv').
Proof.
  revert cols'. induction cols as [|[k v] cols IH]; intros cols' H Hin;
    simpl in H.
  - injection H as <-. destruct Hin.
  - destruct (map_cells f v) as [v'|] eqn:Hv; [|discriminate H]. simpl in H.
    destruct (map_columns f cols) as [rest|] eqn:Hc; [|discriminate H].
    injection H as <-. destruct Hin as [<-|Hin].
    + exists (k, v). split; [left; reflexivity|]. simpl.
      eapply map_cells_length; eauto.
    + destruct (IH rest eq_refl Hin) as (kv' & Hin' & Hlen).
      exists kv'. split; [right; exact Hin' | exact Hlen].
Qed.

End Shape.

(** X1.  [pd.DataFrame] raises [ValueError] exactly when two of the lists
    differ in length.  When it succeeds the frame has the default range
    index, the columns of the dict in their order, as many rows as every
    list is long, and each cell is the list entry at that position. *)
Theorem X1_DataFrame_from_dict (data : list (string * list pyval)) :
  ((exists df, pd_DataFrame data = Ok df)
   <-> (forall kv kv', In kv data -> In kv' data ->
          length (snd kv) = length (snd kv')))
  /\ ((forall df, pd_DataFrame data <> Ok df) ->
      pd_DataFrame data = Raise ValueError)
  /\ (forall df, pd_DataFrame data = Ok df ->
        columns df = data
        /\ (exists n, index df = RangeIndex n
                      /\ forall kv, In kv data -> length (snd kv) = n)
        /\ rectangular df = true
        /\ forall i c, cell df i c
                       = match get_column c data with
                         | Some v => v !! i
                         | None => None
                         end).
Proof.
  split; [|split].
  - destruct data as [|[k v] rest]; simpl.
    + split; [intros _ kv kv' [] | eauto].
    + destruct (forallb _ rest) eqn:E.
      * split; [|eauto]. intros _.
        rewrite forallb_forall in E.
        assert (Hall : forall kv, In kv ((k, v) :: rest) ->
                                  length (snd kv) = length v).
        { intros kv [<-|Hin]; [reflexivity|].
          apply Nat.eqb_eq, E, Hin. }
        intros kv kv' H1 H2. rewrite (Hall kv H1), (Hall kv' H2). reflexivity.
      * split; [intros [df H]; discriminate H|].
        intros Hall. exfalso.
        assert (forallb (fun kv : string * list pyval =>
                           Nat.eqb (length (snd kv)) (length v)) rest = true).
        { apply forallb_forall. intros kv Hin. apply Nat.eqb_eq.
          apply (Hall kv (k, v)); [right; exact Hin | left; reflexivity]. }
        congruence.
  - intros Hno. destruct data as [|[k v] rest]; simpl in *.
    + exfalso. exact (Hno _ eq_refl).
    + destruct (forallb _ rest); [exfalso; exact (Hno _ eq_refl) | reflexivity].
  - intros df H. destruct data as [|[k v] rest]; simpl in H.
    + injection H as <-. simpl. split; [reflexivity|].
      split; [exists 0%nat; split; [reflexivity | intros kv []]|].
      split; reflexivity.
    + destruct (forallb _ rest) eqn:E; [|discriminate H].
      injection H as <-. simpl. rewrite forallb_forall in E.
      assert (Hall : forall kv, In kv ((k, v) :: rest) ->
                                length (snd kv) = length v).
      { intros kv [<-|Hin]; [reflexivity|]. apply Nat.eqb_eq, E, Hin. }
      split; [reflexivity|].
      split; [exists (length v); split; [reflexivity | exact Hall]|].
      split; [|reflexivity].
      unfold rectangular. simpl. rewrite Nat.eqb_refl. simpl.
      apply forallb_forall. exact E.
Qed.

Lemma X1_witness :
  pd_DataFrame [ ("a", [np_nan]); ("b", [np_nan; np_nan]) ]%string
  = Raise ValueError.
Proof.
  apply (proj1 (proj2 (X1_DataFrame_from_dict
                         [ ("a", [np_nan]); ("b", [np_nan; np_nan]) ]%string))).
  intros df H. vm_compute in H. discriminate H.
Defined.

(** X2.  [set_index] raises [KeyError] when no column has the given name.
    Otherwise the values of that column become the index, the column is
    no longer among the columns, the cells of every other column are what
    they were, and a rectangular frame stays rectangular. *)
Theorem X2_set_index (key : string) (df : DataFrame) :
  (get_column key (columns df) = None -> set_index key df = Raise KeyError)
  /\ (forall v, get_column key (columns df) = Some v ->
        exists df',
          set_index key df = Ok df'
          /\ index df' = Index key v
          /\ ~ In key (column_names df')
          /\ (forall i, cell df' i key = None)
          /\ (forall i c, c <> key -> cell df' i c = cell df i c)
          /\ (rectangular df = true -> rectangular df' = true)).
Proof.
  unfold set_index. split.
  - intros ->. reflexivity.
  - intros v Hv. rewrite Hv. eexists. split; [reflexivity|]. simpl.
    split; [reflexivity|].
    split; [apply get_column_None_names, get_column_drop_same|].
    split; [intros i; unfold cell; simpl;
            rewrite get_column_drop_same; reflexivity|].
    split.
    + intros i c Hc. unfold cell; simpl.
      rewrite get_column_drop_other by exact Hc. reflexivity.
    + intros Hr. destruct df as [idx cols]. simpl in *.
      assert (Hlen : length v = index_size idx).
      { unfold rectangular in Hr. simpl in Hr. rewrite forallb_forall in Hr.
        apply Nat.eqb_eq. apply (Hr (key, v)). apply get_column_In, Hv. }
      eapply (rectangular_columns idx); [| |exact Hr].
      * simpl. exact Hlen.
      * intros kv Hin. exists kv. split; [|reflexivity].
        unfold drop_column in Hin. apply filter_In in Hin. apply Hin.
Qed.

Lemma X2_witness :
  exists df',
    set_index "Metric" fairness_yelp_frame = Ok df'
    /\ cell df' 6 "SVD++" = Some (fl 10078 4)
    /\ rectangular df' = true.
Proof.
  destruct (proj2 (X2_set_index "Metric" fairness_yelp_frame) metrics eq_refl)
    as (df' & Hs & _ & _ & _ & Hc & Hr).
  exists df'. split; [exact Hs|]. split.
  - rewrite Hc by discriminate. reflexivity.
  - apply Hr. reflexivity.
Defined.

(** ** The display formatting as an operation on frames *)

Section Formatting.

Lemma format_cell_float (x : spec_float) :
  exists s, format_cell (PyFloat x) = Ok (PyStr s).
Proof.
  unfold format_cell. simpl. destruct (float_isnan x); simpl; eauto.
Qed.

Lemma format_cell_str (s : string) : format_cell (PyStr s) = Raise ValueError.
Proof. reflexivity. Qed.

Lemma forall_cells_from_const (p : pyval -> bool) n l :
  forall_cells_from (fun _ x => p x) n l = forallb p l.
Proof.
  revert n. induction l as [|x l IH]; intros n; simpl; [reflexivity|].
  rewrite IH. reflexivity.
Qed.

Lemma map_cells_format_floats (l : list pyval) :
  forallb is_float l = true ->
  exists l', map_cells format_cell l = Ok l' /\ forallb is_str l' = true.
Proof.
  induction l as [|x l IH]; simpl; intros H.
  - exists []. split; reflexivity.
  - apply andb_prop in H as [Hx Hl].
    destruct x as [f|s]; [|discriminate Hx].
    destruct (format_cell_float f) as (s & ->).
    destruct (IH Hl) as (l' & -> & Hl'). simpl.
    exists (PyStr s :: l'). split; [reflexivity | exact Hl'].
Qed.

Lemma map_cells_format_str (l : list pyval) :
  forallb is_float l = false -> map_cells format_cell l = Raise ValueError.
Proof.
  induction l as [|x l IH]; simpl; intros H; [discriminate H|].
  destruct x as [f|s]; simpl in H.
  - destruct (format_cell_float f) as (s & ->). simpl.
    rewrite (IH H). reflexivity.
  - reflexivity.
Qed.

Lemma map_columns_format_floats (cols : list (string * list pyval)) :
  forallb (fun kv => forallb is_float (snd kv)) cols = true ->
  exists cols',
    map_columns format_cell cols = Ok cols'
    /\ forallb (fun kv => forallb is_str (snd kv)) cols' = true.
Proof.
  induction cols as [|[k v] cols IH]; simpl; intros H.
  - exists []. split; reflexivity.
  - apply andb_prop in H as [Hv Hc].
    destruct (map_cells_format_floats v Hv) as (v' & -> & Hv').
    destruct (IH Hc) as (cols' & -> & Hc'). simpl.
    exists ((k, v') :: cols'). split; [reflexivity|].
    simpl. rewrite Hv', Hc'. reflexivity.
Qed.

Lemma map_columns_format_str (cols : list (string * list pyval)) :
  forallb (fun kv => forallb is_float (snd kv)) cols = false ->
  map_columns format_cell cols = Raise ValueError.
Proof.
  induction cols as [|[k v] cols IH]; simpl; intros H; [discriminate H|].
  destruct (forallb is_float v) eqn:Hv; simpl in H.
  - destruct (map_cells_format_floats v Hv) as (v' & -> & _). simpl.
    rewrite (IH H). reflexivity.
  - rewrite (map_cells_format_str v Hv). reflexivity.
Qed.

Lemma forall_cells_const (p : pyval -> bool) (df : DataFrame) :
  forall_cells (fun _ _ v => p v) df
  = forallb (fun kv => forallb p (snd kv)) (columns df).
Proof.
  unfold forall_cells.
  induction (columns df) as [|kv cols IH]; simpl; [reflexivity|].
  rewrite forall_cells_from_const, IH. reflexivity.
Qed.

Lemma applymap_rectangular f df df' :
  applymap f df = Ok df' -> rectangular df = true -> rectangular df' = true.
Proof.
  unfold applymap. intros H.
  destruct (map_columns f (columns df)) as [cols|] eqn:Hc; [|discriminate H].
  injection H as <-. destruct df as [idx cs]. simpl in *.
  apply rectangular_columns; [reflexivity|].
  intros kv Hin. eapply map_columns_In; eauto.
Qed.

End Formatting.

(** X3.  The display formatting of a whole frame succeeds when every
    cell is a float, and its result holds strings only and is rectangular
    when the frame was.  It raises [ValueError] on a frame of floats and
    strings in which some cell is a string; so the formatting cannot be
    applied a second time to a table that has a cell, nor to a table that
    already marks a missing metric with ["-"]. *)
Theorem X3_formatting_floats_not_strings (df : DataFrame) :
  (forall_cells (fun _ _ v => is_float v) df = true ->
   exists df',
     applymap format_cell df = Ok df'
     /\ forall_cells (fun _ _ v => is_str v) df' = true
     /\ (rectangular df = true -> rectangular df' = true)
     /\ (forall i c x, cell df i c = Some x ->
           applymap format_cell df' = Raise ValueError))
  /\ (forall i c s, cell df i c = Some (PyStr s) ->
        applymap format_cell df = Raise ValueError).
Proof.
  assert (Hfail : forall d, forall_cells (fun _ _ v => is_float v) d = false ->
                            applymap format_cell d = Raise ValueError).
  { intros d H. rewrite forall_cells_const in H. unfold applymap.
    rewrite (map_columns_format_str _ H). reflexivity. }
  assert (Hstr : forall d i c s, cell d i c = Some (PyStr s) ->
                   forall_cells (fun _ _ v => is_float v) d = false).
  { intros d i c s Hc.
    destruct (forall_cells (fun _ _ v => is_float v) d) eqn:E; [|reflexivity].
    apply (forall_cells_sound _ _ E) in Hc. discriminate Hc. }
  split.
  - intros H. rewrite forall_cells_const in H.
    destruct (map_columns_format_floats _ H) as (cols' & Hc & Hs).
    exists (mkDataFrame (index df) cols').
    assert (Ha : applymap format_cell df = Ok (mkDataFrame (index df) cols')).
    { unfold applymap. rewrite Hc. reflexivity. }
    split; [exact Ha|].
    split; [rewrite forall_cells_const; exact Hs|].
    split; [apply (applymap_rectangular _ _ _ Ha)|].
    intros i c x Hx.
    destruct (applymap_cell _ _ _ _ _ _ Ha Hx) as (y & Hy & Hc').
    assert (Hys : is_str y = true).
    { apply (forall_cells_sound (fun _ _ v => is_str v) _) in Hc';
        [exact Hc'|]. rewrite forall_cells_const. exact Hs. }
    destruct y as [f|s]; [discriminate Hys|].
    apply Hfail. eapply Hstr; eauto.
  - intros i c s Hc. apply Hfail. eapply Hstr; eauto.
Qed.

Lemma X3_witness :
  applymap format_cell fairness_yelp_frame = Raise ValueError
  /\ applymap format_cell formatted_table_shown = Raise ValueError.
Proof.
  split.
  - apply (proj2 (X3_formatting_floats_not_strings fairness_yelp_frame)
             8%nat "SVD++"%string "-"%string).
    reflexivity.
  - destruct (proj1 (X3_formatting_floats_not_strings
                       condensed_transposed_frame))
      as (df' & Ha & _ & _ & Hre); [vm_compute; reflexivity|].
    rewrite applymap_condensed_transposed in Ha. injection Ha as <-.
    apply (Hre 0%nat "ItemKNN"%string (fl 9738 4)). reflexivity.
Defined.

(** ** [replace] *)

Section Replace.

Lemma replace_twice_cells (a b c d : pyval) (p : pyval -> bool)
  (g : pyval -> pyval) (df : DataFrame) :
  (forall x, p x = true -> replace_cell a b (replace_cell c d x) = g x) ->
  forall_cells (fun _ _ v => p v) df = true ->
  replace a b (replace c d df)
  = mkDataFrame (index df)
      (map (fun kv : string * list pyval => (fst kv, map g (snd kv)))
           (columns df)).
Proof.
  intros Hg H. rewrite forall_cells_const in H.
  destruct df as [idx cols]. unfold replace; simpl in *. f_equal.
  induction cols as [|[k v] cols IH]; simpl in *; [reflexivity|].
  apply andb_prop in H as [Hv Hc]. rewrite (IH Hc). f_equal. f_equal.
  clear IH Hc. induction v as [|x v IHv]; simpl in *; [reflexivity|].
  apply andb_prop in Hv as [Hx Hv]. rewrite (Hg x Hx), (IHv Hv). reflexivity.
Qed.

Lemma map_columns_id (idx : pd_index) (cols : list (string * list pyval)) :
  mkDataFrame idx
    (map (fun kv : string * list pyval => (fst kv, map (fun x => x) (snd kv)))
         cols)
  = mkDataFrame idx cols.
Proof.
  f_equal. induction cols as [|[k v] cols IH]; simpl; [reflexivity|].
  rewrite map_id, IH. reflexivity.
Qed.

Lemma replace_rectangular a b df :
  rectangular df = true -> rectangular (replace a b df) = true.
Proof.
  destruct df as [idx cols]. unfold replace; simpl.
  apply rectangular_columns; [reflexivity|].
  intros kv Hin. apply in_map_iff in Hin as (kv' & <- & Hin').
  exists kv'. split; [exact Hin'|]. simpl. apply length_map.
Qed.

Lemma replace_nan_leaves_none (value : pyval) (df : DataFrame) :
  pd_isna value = false ->
  forall i c x, cell (replace np_nan value df) i c = Some x ->
                pd_isna x = false.
Proof.
  intros Hv i c x. rewrite replace_cell_at.
  destruct (cell df i c) as [y|]; simpl; [|discriminate].
  intros [= <-]. unfold replace_cell, replace_mask. simpl.
  destruct (pd_isna y) eqn:E; assumption.
Qed.

End Replace.

(** X4.  [replace(np.nan, value)] with a value that is not missing leaves
    no missing cell: a missing cell becomes the value, any other cell
    stays what it was, and no cell appears or disappears.  Applying it a
    second time changes nothing, and a rectangular frame stays
    rectangular. *)
Theorem X4_replace_fills_missing (value : pyval) (df : DataFrame) :
  pd_isna value = false ->
  (forall i c x, cell (replace np_nan value df) i c = Some x ->
     pd_isna x = false)
  /\ (forall i c x, cell df i c = Some x ->
        cell (replace np_nan value df) i c
        = Some (if pd_isna x then value else x))
  /\ (forall i c, cell df i c = None ->
        cell (replace np_nan value df) i c = None)
  /\ replace np_nan value (replace np_nan value df) = replace np_nan value df
  /\ (rectangular df = true ->
      rectangular (replace np_nan value df) = true).
Proof.
  intros Hv.
  assert (Hcell : forall x, replace_cell np_nan value x
                            = if pd_isna x then value else x).
  { intros x. reflexivity. }
  split; [|split; [|split; [|split]]].
  - apply replace_nan_leaves_none, Hv.
  - intros i c x Hc. rewrite replace_cell_at, Hc. reflexivity.
  - intros i c Hc. rewrite replace_cell_at, Hc. reflexivity.
  - rewrite (replace_twice_cells np_nan value np_nan value
               (fun _ => true) (replace_cell np_nan value) df).
    + reflexivity.
    + intros x _. rewrite !Hcell.
      destruct (pd_isna x) eqn:E; [rewrite Hv | rewrite E]; reflexivity.
    + rewrite forall_cells_const.
      induction (columns df) as [|kv cols IH]; simpl; [reflexivity|].
      rewrite IH, andb_true_r. induction (snd kv); simpl; auto.
  - apply replace_rectangular.
Qed.

Lemma X4_witness :
  cell (replace np_nan (PyStr "-") condensed_transposed_frame) 7 "UserKNN"
  = Some (PyStr "-")
  /\ cell (replace np_nan (PyStr "-") condensed_transposed_frame) 7 "ItemKNN"
     = Some (fl 9491 4).
Proof.
  pose proof (X4_replace_fills_missing (PyStr "-") condensed_transposed_frame
                eq_refl) as (_ & H & _).
  split.
  - apply (H 7%nat "UserKNN"%string np_nan). reflexivity.
  - apply (H 7%nat "ItemKNN"%string (fl 9491 4)). reflexivity.
Defined.

(** X5.  The two ways of marking a metric as not available convert into
    each other without loss.  On a frame without missing cells, turning
    every ["-"] into NaN and then every NaN into ["-"] gives the frame
    back; on a frame without ["-"] cells, turning every NaN into ["-"]
    and then every ["-"] into NaN gives the frame back. *)
Theorem X5_replace_round_trip (df : DataFrame) :
  (forall_cells (fun _ _ v => negb (pd_isna v)) df = true ->
   replace np_nan (PyStr "-") (replace (PyStr "-") np_nan df) = df)
  /\ (forall_cells (fun _ _ v => negb (is_label "-" v)) df = true ->
      replace (PyStr "-") np_nan (replace np_nan (PyStr "-") df) = df).
Proof.
  split; intros H.
  - rewrite (replace_twice_cells np_nan (PyStr "-") (PyStr "-") np_nan
               (fun v => negb (pd_isna v)) (fun x => x) df).
    + destruct df; apply map_columns_id.
    + intros [f|s] Hx; unfold replace_cell, replace_mask; simpl in *.
      * apply negb_true_iff in Hx. rewrite Hx. reflexivity.
      * destruct (String.eqb s "-") eqn:E; simpl; [|reflexivity].
        apply String.eqb_eq in E as ->. reflexivity.
    + exact H.
  - rewrite (replace_twice_cells (PyStr "-") np_nan np_nan (PyStr "-")
               (fun v => negb (is_label "-" v)) (fun x => x) df).
    + destruct df; apply map_columns_id.
    + intros [f|s] Hx.
      * destruct f; reflexivity.
      * unfold is_label in Hx. apply negb_true_iff in Hx.
        rewrite String.eqb_sym in Hx.
        unfold replace_cell, replace_mask, pd_isna, py_eq, np_nan, float_isnan.
        rewrite Hx. reflexivity.
    + exact H.
Qed.

Lemma X5_witness :
  replace np_nan (PyStr "-") (replace (PyStr "-") np_nan fairness_yelp_frame)
  = fairness_yelp_frame
  /\ replace (PyStr "-") np_nan
       (replace np_nan (PyStr "-") condensed_transposed_frame)
     = condensed_transposed_frame.
Proof.
  split.
  - apply (proj1 (X5_replace_round_trip fairness_yelp_frame)).
    vm_compute. reflexivity.
  - apply (proj2 (X5_replace_round_trip condensed_transposed_frame)).
    vm_compute. reflexivity.
Defined.

(** ** The statements of the cell in an arbitrary notebook state *)

Section Statements.

Lemma insert_at_end (h : list DataFrame) (d d' : DataFrame) :
  <[length h := d']> (h ++ [d]) = h ++ [d'].
Proof.
  rewrite insert_app_r_alt by lia.
  replace (length h - length h)%nat with 0%nat by lia. reflexivity.
Qed.

Lemma set_index_inplace_runs (st : state) (l : nat) (d d' : DataFrame) :
  env st !! "condensed_transposed" = Some l ->
  heap st !! l = Some d ->
  set_index "Metric" d = Ok d' ->
  set_index_inplace st
  = Ok (tt, mkState (<[l := d']> (heap st)) (env st) (outputs st)).
Proof.
  intros He Hh Hs. unfold set_index_inplace, mbind, var, load, lift, store.
  rewrite He, Hh, Hs. reflexivity.
Qed.

(** What a successful run of the in-place [set_index] started from. *)
Lemma set_index_inplace_inv (st st' : state) :
  set_index_inplace st = Ok (tt, st') ->
  exists l d d',
    env st !! "condensed_transposed" = Some l
    /\ heap st !! l = Some d
    /\ set_index "Metric" d = Ok d'
    /\ st' = mkState (<[l := d']> (heap st)) (env st) (outputs st).
Proof.
  unfold set_index_inplace, mbind, var, load, lift, store. intros H.
  destruct (env st !! "condensed_transposed") as [l|] eqn:He; [|discriminate H].
  destruct (heap st !! l) as [d|] eqn:Hh; [|discriminate H].
  destruct (set_index "Metric" d) as [d'|] eqn:Hs; [|discriminate H].
  injection H as <-. exists l, d, d'. repeat split; assumption.
Qed.

Lemma replace_fairness_yelp_runs (st : state) (l : nat) (d : DataFrame) :
  env st !! "fairness_yelp" = Some l ->
  heap st !! l = Some d ->
  replace_fairness_yelp st
  = Ok (tt, mkState (heap st ++ [replace np_nan (PyStr "-") d])
              (<["fairness_yelp" := length (heap st)]> (env st))
              (outputs st)).
Proof.
  intros He Hh. unfold replace_fairness_yelp, mbind, var, load, alloc, assign.
  rewrite He, Hh. reflexivity.
Qed.

End Statements.

(** X6.  [set_index(..., inplace=True)] changes the object itself: when
    the statement succeeds, no variable is rebound, no object is created,
    nothing is printed, every other object is as before, and every
    variable that refers to the same object as [condensed_transposed]
    sees the frame with [Metric] as its index. *)
Theorem X6_set_index_changes_the_object (st st' : state) :
  set_index_inplace st = Ok (tt, st') ->
  exists l d v,
    env st !! "condensed_transposed" = Some l
    /\ heap st !! l = Some d
    /\ get_column "Metric" (columns d) = Some v
    /\ env st' = env st
    /\ outputs st' = outputs st
    /\ length (heap st') = length (heap st)
    /\ (forall k, k <> l -> heap st' !! k = heap st !! k)
    /\ (forall x, env st !! x = Some l ->
          frame_of x st'
          = Some (mkDataFrame (Index "Metric" v)
                    (drop_column "Metric" (columns d)))).
Proof.
  intros H.
  destruct (set_index_inplace_inv st st' H) as (l & d & d' & He & Hh & Hs & ->).
  unfold set_index in Hs.
  destruct (get_column "Metric" (columns d)) as [v|] eqn:Hv; [|discriminate Hs].
  injection Hs as <-.
  exists l, d, v. simpl.
  split; [exact He|]. split; [exact Hh|]. split; [exact Hv|].
  split; [reflexivity|]. split; [reflexivity|].
  split; [apply length_insert|].
  split.
  - intros k Hk. apply list_lookup_insert_ne. congruence.
  - intros x Hx. unfold frame_of. simpl. rewrite Hx.
    apply list_lookup_insert_eq. eapply lookup_lt_Some; eauto.
Qed.

Lemma X6_witness :
  exists st',
    set_index_inplace
      (mkState [mkDataFrame (RangeIndex 11) condensed_transposed_data]
               (<["condensed_transposed" := 0%nat]> (<["alias" := 0%nat]> ∅))
               [])
    = Ok (tt, st')
    /\ frame_of "alias" st' = Some condensed_transposed_frame.
Proof.
  set (st := mkState [mkDataFrame (RangeIndex 11) condensed_transposed_data]
               (<["condensed_transposed" := 0%nat]> (<["alias" := 0%nat]> ∅))
               []).
  assert (Hrun : exists st', set_index_inplace st = Ok (tt, st')).
  { eexists. vm_compute. reflexivity. }
  destruct Hrun as (st' & Hrun). exists st'. split; [exact Hrun|].
  destruct (X6_set_index_changes_the_object st st' Hrun)
    as (l & d & v & He & Hh & Hv & _ & _ & _ & _ & Hal).
  assert (Hl : l = 0%nat) by (vm_compute in He; congruence).
  subst l. vm_compute in Hh. injection Hh as <-.
  vm_compute in Hv. injection Hv as <-.
  rewrite (Hal "alias"%string); [reflexivity|].
  vm_compute. reflexivity.
Defined.

(** X7.  The in-place [set_index] cannot be run twice: after a successful
    run the object has no [Metric] column any more, so a second run
    raises [KeyError].  It raises [NameError] when the variable is not
    bound, and [KeyError] whenever the frame has no [Metric] column. *)
Theorem X7_set_index_not_repeatable (st : state) :
  (forall st', set_index_inplace st = Ok (tt, st') ->
     set_index_inplace st' = Raise KeyError)
  /\ (env st !! "condensed_transposed" = None ->
      set_index_inplace st = Raise NameError)
  /\ (forall l d, env st !! "condensed_transposed" = Some l ->
        heap st !! l = Some d ->
        get_column "Metric" (columns d) = None ->
        set_index_inplace st = Raise KeyError).
Proof.
  split; [|split].
  - intros st' H.
    destruct (set_index_inplace_inv st st' H)
      as (l & d & d' & He & Hh & Hs & ->).
    unfold set_index in Hs.
    destruct (get_column "Metric" (columns d)) as [v|] eqn:Hv;
      [|discriminate Hs].
    injection Hs as <-.
    set (d' := mkDataFrame (Index "Metric" v)
                 (drop_column "Metric" (columns d))).
    set (st' := mkState (<[l := d']> (heap st)) (env st) (outputs st)).
    assert (He' : env st' !! "condensed_transposed" = Some l) by exact He.
    assert (Hh' : heap st' !! l = Some d').
    { apply list_lookup_insert_eq. eapply lookup_lt_Some; eauto. }
    assert (Hv' : get_column "Metric" (columns d') = None)
      by apply get_column_drop_same.
    unfold set_index_inplace, mbind, var, load, lift, set_index.
    rewrite He', Hh', Hv'. reflexivity.
  - intros He. unfold set_index_inplace, mbind, var. rewrite He. reflexivity.
  - intros l d He Hh Hv.
    unfold set_index_inplace, mbind, var, load, lift, set_index.
    rewrite He, Hh, Hv. reflexivity.
Qed.

Lemma X7_witness :
  exists st,
    state_after until_set_index = Some st
    /\ set_index_inplace st = Raise KeyError
    /\ set_index_inplace initial = Raise NameError.
Proof.
  destruct until_set_index_state as (st & Hst & Hf).
  exists st. split; [exact Hst|]. split.
  - destruct (build_condensed_transposed initial) as [[[] st0]|] eqn:H0;
      [|vm_compute in H0; discriminate H0].
    apply (proj1 (X7_set_index_not_repeatable st0) st).
    unfold state_after, until_set_index, mbind in Hst. rewrite H0 in Hst.
    destruct (set_index_inplace st0) as [[[] st1]|]; [|discriminate Hst].
    injection Hst as ->. reflexivity.
  - apply (proj1 (proj2 (X7_set_index_not_repeatable initial))).
    vm_compute. reflexivity.
Defined.

(** X8.  [fairness_yelp = fairness_yelp.replace(np.nan, "-")] rebinds the
    variable to a new object and leaves the old one alone: whenever the
    variable refers to a frame the statement runs, the variable then
    holds the replaced frame, which has no missing cell, while the old
    object and every other object and variable are unchanged, so another
    variable that referred to the old frame still sees it. *)
Theorem X8_replace_rebinds (st : state) (l : nat) (d : DataFrame) :
  env st !! "fairness_yelp" = Some l ->
  heap st !! l = Some d ->
  exists st',
    replace_fairness_yelp st = Ok (tt, st')
    /\ frame_of "fairness_yelp" st' = Some (replace np_nan (PyStr "-") d)
    /\ (forall i c x,
          (match frame_of "fairness_yelp" st' with
           | Some d' => cell d' i c
           | None => None
           end) = Some x -> pd_isna x = false)
    /\ (forall k o, heap st !! k = Some o -> heap st' !! k = Some o)
    /\ (forall x, x <> "fairness_yelp"%string -> env st' !! x = env st !! x)
    /\ (forall x, x <> "fairness_yelp"%string -> env st !! x = Some l ->
          frame_of x st' = Some d)
    /\ outputs st' = outputs st.
Proof.
  intros He Hh. eexists.
  split; [apply (replace_fairness_yelp_runs st l d He Hh)|].
  assert (Hnew : frame_of "fairness_yelp"
                   (mkState (heap st ++ [replace np_nan (PyStr "-") d])
                      (<["fairness_yelp" := length (heap st)]> (env st))
                      (outputs st))
                 = Some (replace np_nan (PyStr "-") d)).
  { unfold frame_of. simpl. rewrite lookup_insert_eq.
    apply list_lookup_middle. reflexivity. }
  split; [exact Hnew|].
  split.
  { rewrite Hnew. intros i c x Hx.
    apply (replace_nan_leaves_none (PyStr "-") d eq_refl i c x Hx). }
  simpl.
  split; [intros k o Hk; apply lookup_app_l_Some, Hk|].
  split; [intros x Hx; rewrite lookup_insert_ne by congruence; reflexivity|].
  split; [|reflexivity].
  intros x Hx Hxl. unfold frame_of. simpl.
  rewrite lookup_insert_ne by congruence. rewrite Hxl.
  apply lookup_app_l_Some, Hh.
Qed.

Lemma X8_witness :
  exists st',
    replace_fairness_yelp
      (mkState [replace (PyStr "-") np_nan fairness_yelp_frame]
               (<["fairness_yelp" := 0%nat]> (<["raw" := 0%nat]> ∅)) [])
    = Ok (tt, st')
    /\ frame_of "fairness_yelp" st' = Some fairness_yelp_frame
    /\ frame_of "raw" st'
       = Some (replace (PyStr "-") np_nan fairness_yelp_frame).
Proof.
  set (st := mkState [replace (PyStr "-") np_nan fairness_yelp_frame]
               (<["fairness_yelp" := 0%nat]> (<["raw" := 0%nat]> ∅)) []).
  assert (He : env st !! "fairness_yelp" = Some 0%nat)
    by (vm_compute; reflexivity).
  assert (Hr : env st !! "raw" = Some 0%nat) by (vm_compute; reflexivity).
  destruct (X8_replace_rebinds st 0%nat
              (replace (PyStr "-") np_nan fairness_yelp_frame) He eq_refl)
    as (st' & Hrun & Hf & _ & _ & _ & Hal & _).
  exists st'. split; [exact Hrun|]. split.
  - rewrite Hf. reflexivity.
  - apply Hal; [discriminate | exact Hr].
Defined.

Section WholeCell.

Lemma mbind_ok {A B} (m : M A) (k : A -> M B) (st st' : state) (a : A) :
  m st = Ok (a, st') -> mbind m k st = k a st'.
Proof. unfold mbind. intros ->. reflexivity. Qed.

Lemma build_condensed_transposed_runs (st : state) :
  build_condensed_transposed st
  = Ok (tt, mkState
              (heap st ++ [mkDataFrame (RangeIndex 11) condensed_transposed_data])
              (<["condensed_transposed" := length (heap st)]> (env st))
              (outputs st)).
Proof. reflexivity. Qed.

Lemma build_fairness_yelp_runs (st : state) :
  build_fairness_yelp st
  = Ok (tt, mkState (heap st ++ [fairness_yelp_frame])
              (<["fairness_yelp" := length (heap st)]> (env st))
              (outputs st)).
Proof. reflexivity. Qed.

Lemma display_formatted_table_runs (st : state) (l : nat) (d : DataFrame) :
  env st !! "formatted_table" = Some l ->
  heap st !! l = Some d ->
  display_formatted_table st
  = Ok (tt, mkState (heap st) (env st)
              (outputs st
               ++ [Stream ((newline +:+ " Fairness Table (Movielens):")
                           +:+ newline)]
               ++ [DisplayData d])).
Proof.
  intros He Hh.
  unfold display_formatted_table, mbind, print, var, display, load.
  cbn [heap env outputs]. rewrite He.
  unfold mbind. cbn [heap env outputs]. rewrite Hh.
  cbn [heap env outputs]. rewrite <- app_assoc. reflexivity.
Qed.

Lemma display_fairness_yelp_runs (st : state) (l : nat) (d : DataFrame) :
  env st !! "fairness_yelp" = Some l ->
  heap st !! l = Some d ->
  display_fairness_yelp st
  = Ok (tt, mkState (heap st) (env st)
              (outputs st
               ++ [Stream ((newline
                            +:+ "Fairness Summary Table Across Models (Yelp):")
                           +:+ newline)]
               ++ [DisplayData d])).
Proof.
  intros He Hh.
  unfold display_fairness_yelp, mbind, print, var, display, load.
  cbn [heap env outputs]. rewrite He.
  unfold mbind. cbn [heap env outputs]. rewrite Hh.
  cbn [heap env outputs]. rewrite <- app_assoc. reflexivity.
Qed.

Lemma replace_fairness_yelp_frame :
  replace np_nan (PyStr "-") fairness_yelp_frame = fairness_yelp_frame.
Proof. apply replace_unselected. vm_compute. reflexivity. Qed.

End WholeCell.

(** In the model, where only frames and the variables that hold them are
    tracked, the statements of the cell run from any state of the store:
    the three variables get the three tables, the two titles and the two
    tables are added to the outputs, five frames are allocated, and no
    frame that existed and no other variable of the store is changed. *)
Lemma code_cell_from_state (st : state) :
  exists st',
    code_cell st = Ok (tt, st')
    /\ frame_of "condensed_transposed" st' = Some condensed_transposed_frame
    /\ frame_of "formatted_table" st' = Some formatted_table_shown
    /\ frame_of "fairness_yelp" st' = Some fairness_yelp_frame
    /\ outputs st'
       = outputs st
         ++ [ Stream (newline +:+ " Fairness Table (Movielens):" +:+ newline);
              DisplayData formatted_table_shown;
              Stream (newline +:+ "Fairness Summary Table Across Models (Yelp):"
                      +:+ newline);
              DisplayData fairness_yelp_frame ]
    /\ length (heap st') = (length (heap st) + 5)%nat
    /\ (forall k o, heap st !! k = Some o -> heap st' !! k = Some o)
    /\ (forall x, x <> "condensed_transposed"%string ->
                  x <> "formatted_table"%string ->
                  x <> "fairness_yelp"%string ->
                  env st' !! x = env st !! x).
Proof.
  destruct st as [h e o]. set (n := length h).
  set (h2 := h ++ [condensed_transposed_frame]).
  set (e1 := <["condensed_transposed" := n]> e).
  set (h3 := (h2 ++ [copy condensed_transposed_frame]) ++ [formatted_table_shown]).
  set (e3 := <["formatted_table" := S (length h2)]> e1).
  set (o4 := o ++ [Stream ((newline +:+ " Fairness Table (Movielens):")
                           +:+ newline)]
               ++ [DisplayData formatted_table_shown]).
  set (h5 := h3 ++ [fairness_yelp_frame]).
  set (e5 := <["fairness_yelp" := length h3]> e3).
  set (h6 := h5 ++ [fairness_yelp_frame]).
  set (e6 := <["fairness_yelp" := length h5]> e5).
  set (o7 := o4 ++ [Stream ((newline
                             +:+ "Fairness Summary Table Across Models (Yelp):")
                            +:+ newline)]
                ++ [DisplayData fairness_yelp_frame]).
  assert (Hlen2 : length h2 = S n) by (unfold h2; rewrite length_app; simpl; lia).
  assert (Hlen3 : length h3 = S (S (S n)))
    by (unfold h3; rewrite !length_app, Hlen2; simpl; lia).
  assert (Hlen5 : length h5 = S (S (S (S n))))
    by (unfold h5; rewrite length_app, Hlen3; simpl; lia).
  assert (H2n : h2 !! n = Some condensed_transposed_frame)
    by (apply list_lookup_middle; reflexivity).
  assert (H3f : h3 !! S (length h2) = Some formatted_table_shown).
  { apply list_lookup_middle. rewrite length_app. simpl. lia. }
  assert (H5y : h5 !! length h3 = Some fairness_yelp_frame)
    by (apply list_lookup_middle; reflexivity).
  assert (H6y : h6 !! length h5 = Some fairness_yelp_frame)
    by (apply list_lookup_middle; reflexivity).
  assert (Hrun : code_cell (mkState h e o) = Ok (tt, mkState h6 e6 o7)).
  { unfold code_cell.
    rewrite (mbind_ok _ _ _ _ _ (build_condensed_transposed_runs _)).
    cbn [heap env outputs]. fold n. fold e1.
    assert (He1 : e1 !! "condensed_transposed" = Some n)
      by apply lookup_insert_eq.
    assert (H1n : (h ++ [mkDataFrame (RangeIndex 11) condensed_transposed_data])
                    !! n
                  = Some (mkDataFrame (RangeIndex 11) condensed_transposed_data))
      by (apply list_lookup_middle; reflexivity).
    rewrite (mbind_ok _ _ _ _ _
               (set_index_inplace_runs
                  (mkState
                     (h ++ [mkDataFrame (RangeIndex 11)
                              condensed_transposed_data]) e1 o)
                  n
                  (mkDataFrame (RangeIndex 11) condensed_transposed_data)
                  condensed_transposed_frame He1 H1n eq_refl)).
    cbn [heap env outputs]. unfold n at 1. rewrite insert_at_end. fold h2.
    rewrite (mbind_ok _ _ _ _ _
               (build_formatted_table_runs (mkState h2 e1 o) n
                  condensed_transposed_frame formatted_table_shown
                  He1 H2n applymap_condensed_transposed)).
    cbn [heap env outputs]. fold h3. fold e3.
    assert (He3 : e3 !! "formatted_table" = Some (S (length h2)))
      by apply lookup_insert_eq.
    rewrite (mbind_ok _ _ _ _ _
               (display_formatted_table_runs (mkState h3 e3 o) _ _ He3 H3f)).
    cbn [heap env outputs]. fold o4.
    rewrite (mbind_ok _ _ _ _ _ (build_fairness_yelp_runs _)).
    cbn [heap env outputs]. fold h5. fold e5.
    assert (He5 : e5 !! "fairness_yelp" = Some (length h3))
      by apply lookup_insert_eq.
    rewrite (mbind_ok _ _ _ _ _
               (replace_fairness_yelp_runs (mkState h5 e5 o4) _ _ He5 H5y)).
    cbn [heap env outputs]. rewrite replace_fairness_yelp_frame.
    fold h6. fold e6.
    assert (He6 : e6 !! "fairness_yelp" = Some (length h5))
      by apply lookup_insert_eq.
    rewrite (display_fairness_yelp_runs (mkState h6 e6 o4) _ _ He6 H6y).
    reflexivity. }
  exists (mkState h6 e6 o7). split; [exact Hrun|].
  assert (Hkeep2 : forall k x, h2 !! k = Some x -> h6 !! k = Some x).
  { intros k x Hk. unfold h6, h5, h3.
    do 4 apply lookup_app_l_Some. exact Hk. }
  unfold frame_of. cbn [heap env outputs].
  split.
  { unfold e6, e5, e3. rewrite !lookup_insert_ne by discriminate.
    unfold e1. rewrite lookup_insert_eq. apply Hkeep2, H2n. }
  split.
  { unfold e6, e5. rewrite !lookup_insert_ne by discriminate.
    unfold e3. rewrite lookup_insert_eq.
    unfold h6, h5. do 2 apply lookup_app_l_Some. exact H3f. }
  split.
  { unfold e6. rewrite lookup_insert_eq. exact H6y. }
  split.
  { unfold o7, o4. rewrite <- !app_assoc. reflexivity. }
  split.
  { unfold h6. rewrite length_app, Hlen5. simpl. lia. }
  split.
  { intros k x Hk. apply Hkeep2. unfold h2. apply lookup_app_l_Some, Hk. }
  intros x H1 H2 H3. unfold e6, e5, e3, e1.
  rewrite !lookup_insert_ne by congruence. reflexivity.
Qed.

(** ** The number a rendered float denotes *)

Section Readback.

Lemma round_half_even_bound (num den : Z) :
  0 < den ->
  2 * Z.abs (num - round_half_even num den * den) <= den
  /\ (2 * Z.abs (num - round_half_even num den * den) = den ->
      Z.even (round_half_even num den) = true).
Proof.
  intros Hden. unfold round_half_even.
  pose proof (Z.div_mod num den ltac:(lia)) as Hdm.
  pose proof (Z.mod_pos_bound num den Hden) as Hr.
  set (q := num / den) in *. set (r := num mod den) in *.
  destruct (2 * r ?= den) eqn:E.
  - apply Z.compare_eq in E.
    destruct (Z.even q) eqn:Hq.
    + split; [nia | intros _; exact Hq].
    + split; [nia|]. intros _.
      replace (q + 1) with (Z.succ q) by lia.
      rewrite Z.even_succ, <- Z.negb_even, Hq. reflexivity.
  - rewrite Z.compare_lt_iff in E. split; nia.
  - rewrite Z.compare_gt_iff in E. split; nia.
Qed.

Lemma round_half_even_nonneg (num den : Z) :
  0 <= num -> 0 < den -> 0 <= round_half_even num den.
Proof.
  intros Hn Hd. unfold round_half_even.
  pose proof (Z.div_pos num den Hn Hd).
  destruct (2 * (num mod den) ?= den); [destruct (Z.even _)| |]; lia.
Qed.

Lemma scaled4_nonneg (m : positive) (e : Z) : 0 <= scaled4 m e.
Proof.
  unfold scaled4. destruct (0 <=? e) eqn:E.
  - apply Z.leb_le in E. pose proof (Z.pow_nonneg 2 e ltac:(lia)). nia.
  - apply Z.leb_gt in E. apply round_half_even_nonneg; [lia|].
    apply Z.pow_pos_nonneg; lia.
Qed.

Lemma digit_cases (d : Z) :
  0 <= d <= 9 ->
  d = 0 \/ d = 1 \/ d = 2 \/ d = 3 \/ d = 4 \/ d = 5 \/ d = 6 \/ d = 7
  \/ d = 8 \/ d = 9.
Proof. lia. Qed.

Lemma uint_of_char_digit (d : Z) (u : Decimal.uint) :
  0 <= d <= 9 ->
  uint_of_char (digit_char d) (Some u) = Some (digit_cons d u).
Proof.
  intros H. destruct (digit_cases d H)
    as [->|[->|[->|[->|[->|[->|[->|[->|[->| ->]]]]]]]]]; reflexivity.
Qed.

Lemma of_lu_digit_cons (d : Z) (u : Decimal.uint) :
  0 <= d <= 9 ->
  DecimalPos.Unsigned.of_lu (digit_cons d u)
  = (Z.to_N d + 10 * DecimalPos.Unsigned.of_lu u)%N.
Proof.
  intros H. destruct (digit_cases d H)
    as [->|[->|[->|[->|[->|[->|[->|[->|[->| ->]]]]]]]]]; reflexivity.
Qed.

Lemma revapp_digit_cons (d : Z) (u v : Decimal.uint) :
  Decimal.revapp (digit_cons d u) v = Decimal.revapp u (digit_cons d v).
Proof.
  unfold digit_cons.
  repeat match goal with
         | |- context [match ?x with _ => _ end] => destruct x
         end; reflexivity.
Qed.

(** The four digits after the point denote the number they were made of. *)
Lemma read_digits_frac4 (k : Z) :
  0 <= k < 10000 -> read_digits (frac4 k) = Some (Z.to_N k).
Proof.
  intros Hk. unfold read_digits, frac4. cbn [NilEmpty.uint_of_string].
  assert (Ha : 0 <= k / 1000 mod 10 <= 9)
    by (pose proof (Z.mod_pos_bound (k / 1000) 10); lia).
  assert (Hb : 0 <= k / 100 mod 10 <= 9)
    by (pose proof (Z.mod_pos_bound (k / 100) 10); lia).
  assert (Hc : 0 <= k / 10 mod 10 <= 9)
    by (pose proof (Z.mod_pos_bound (k / 10) 10); lia).
  assert (Hd : 0 <= k mod 10 <= 9)
    by (pose proof (Z.mod_pos_bound k 10); lia).
  rewrite (uint_of_char_digit _ _ Hd), (uint_of_char_digit _ _ Hc),
    (uint_of_char_digit _ _ Hb), (uint_of_char_digit _ _ Ha).
  simpl option_map. f_equal.
  unfold N.of_uint. rewrite DecimalPos.Unsigned.of_uint_alt.
  unfold Decimal.rev. rewrite !revapp_digit_cons. simpl Decimal.revapp.
  rewrite !of_lu_digit_cons by assumption. simpl DecimalPos.Unsigned.of_lu.
  apply N2Z.inj. rewrite Z2N.id by lia.
  rewrite !N2Z.inj_add, !N2Z.inj_mul, !Z2N.id by lia.
  change (Z.of_N 10) with 10. change (Z.of_N 0) with 0.
  clear Ha Hb Hc Hd. Z.div_mod_to_equations. lia.
Qed.

(** The digits before the point denote the number they were made of. *)
Lemma read_digits_int_digits (k : Z) :
  0 <= k -> read_digits (int_digits k) = Some (Z.to_N k).
Proof.
  intros Hk. unfold read_digits, int_digits, NilZero.string_of_uint.
  pose proof (DecimalN.Unsigned.of_to (Z.to_N k)) as Hof.
  destruct (N.to_uint (Z.to_N k)) as [|u|u|u|u|u|u|u|u|u|u] eqn:E;
    cbv iota;
    try (rewrite NilEmpty.usu; cbn [option_map]; rewrite Hof; reflexivity).
  rewrite <- Hof. reflexivity.
Qed.

Lemma prefix_minus_signed (s : bool) (ip rest : string) :
  ip <> EmptyString -> all_digits ip = true ->
  String.prefix "-" (sign_str s +:+ ip +:+ rest) = s.
Proof.
  intros Hne Hd. destruct ip as [|c ip]; [congruence|].
  destruct s; [simpl; destruct ip; reflexivity|].
  simpl in Hd. apply andb_prop in Hd as [Hc _].
  destruct c as [[] [] [] [] [] [] [] []]; simpl in Hc;
    first [ discriminate Hc | reflexivity ].
Qed.

(** Reading back what is shown for a finite float gives its sign and its
    number of ten-thousandths. *)
Lemma read_4dp_format_finite (s : bool) (m : positive) (e : Z) :
  read_4dp (float_format_4f (S754_finite s m e)) = Some (s, scaled4 m e).
Proof.
  pose proof (scaled4_nonneg m e) as Hn.
  unfold float_format_4f, read_4dp.
  set (n := scaled4 m e) in *.
  assert (Hq : 0 <= n / 10000) by (apply Z.div_pos; lia).
  assert (Hr : 0 <= n mod 10000 < 10000)
    by (apply Z.mod_pos_bound; lia).
  rewrite strip_sign_signed
    by (apply int_digits_nonempty || apply all_digits_int_digits).
  rewrite split_point_digits by apply all_digits_int_digits.
  rewrite (read_digits_int_digits _ Hq), (read_digits_frac4 _ Hr).
  rewrite length_frac4. cbn [Nat.eqb].
  rewrite prefix_minus_signed
    by (apply int_digits_nonempty || apply all_digits_int_digits).
  rewrite !Z2N.id by lia.
  f_equal. f_equal. pose proof (Z.div_mod n 10000 ltac:(lia)). lia.
Qed.

End Readback.

(** X10.  What is shown for a float is its value rounded to four decimals.
    The string made for a finite float [(-1)^s * m * 2^e], read back as a
    decimal numeral, carries the sign of the float, also when the digits
    are all zero, and a number [n] of ten-thousandths that is exact when
    the float is an integer and otherwise differs from the exact value by
    at most half a ten-thousandth, a tie going to the even [n].  A zero
    reads back as zero with its sign; infinities and NaN are shown as
    words, not numerals. *)
Theorem X10_rendered_number_is_rounded_value :
  (forall (s : bool) (m : positive) (e : Z),
      exists n,
        read_4dp (float_format_4f (S754_finite s m e)) = Some (s, n)
        /\ 0 <= n
        /\ (0 <= e -> n = Z.pos m * 2 ^ e * 10000)
        /\ (e < 0 ->
            2 * Z.abs (Z.pos m * 10000 - n * 2 ^ (- e)) <= 2 ^ (- e)
            /\ (2 * Z.abs (Z.pos m * 10000 - n * 2 ^ (- e)) = 2 ^ (- e) ->
                Z.even n = true)))
  /\ (forall s, read_4dp (float_format_4f (S754_zero s)) = Some (s, 0))
  /\ (forall s, float_format_4f (S754_infinity s) = sign_str s +:+ "inf"
                /\ read_4dp (float_format_4f (S754_infinity s)) = None)
  /\ (float_format_4f S754_nan = "nan"%string
      /\ read_4dp (float_format_4f S754_nan) = None).
Proof.
  split; [|split; [|split]].
  - intros s m e. exists (scaled4 m e).
    pose proof (scaled4_nonneg m e) as Hn.
    split; [|split; [exact Hn|split]].
    + apply read_4dp_format_finite.
    + intros He. unfold scaled4.
      destruct (0 <=? e) eqn:E; [reflexivity|]. apply Z.leb_gt in E. lia.
    + intros He. unfold scaled4.
      destruct (0 <=? e) eqn:E; [apply Z.leb_le in E; lia|].
      apply round_half_even_bound. apply Z.pow_pos_nonneg; lia.
  - intros []; reflexivity.
  - intros []; split; reflexivity.
  - split; reflexivity.
Qed.

Lemma X10_witness :
  float_format_4f (S754_finite false 1 (-5)) = "0.0312"%string
  /\ exists n,
       read_4dp (float_format_4f (S754_finite false 1 (-5))) = Some (false, n)
       /\ 2 * Z.abs (10000 - n * 32) <= 32
       /\ Z.even n = true.
Proof.
  split; [reflexivity|].
  destruct (proj1 X10_rendered_number_is_rounded_value false 1%positive (-5))
    as (n & Hread & _ & _ & Hneg).
  destruct (Hneg ltac:(lia)) as [Hb Heven].
  exists n. split; [exact Hread|]. split; [exact Hb|].
  apply Heven.
  vm_compute in Hread. injection Hread as <-. reflexivity.
Defined.

(** ** The narrative against the tables *)

(** X11.  The RMSE observations of the narrative hold of the tables.  In
    the MovieLens table every model has a higher RMSE for female than for
    male users; in both tables SVD++ has the lowest RMSE, ItemKNN the next
    and UserKNN the highest; and every model has a higher RMSE on Yelp
    than on MovieLens.  The figure the narrative quotes for SVD++ is the
    one the MovieLens table shows. *)
Theorem X11_rmse_observations :
  (forall c, In c models ->
     exists f m,
       metric_value condensed_transposed_frame "RMSE (Female)" c
       = Some (PyFloat f)
       /\ metric_value condensed_transposed_frame "RMSE (Male)" c
          = Some (PyFloat m)
       /\ float_lt m f = true)
  /\ (forall t, In t [condensed_transposed_frame; fairness_yelp_frame] ->
        exists s i u,
          metric_value t "RMSE" "SVD++" = Some (PyFloat s)
          /\ metric_value t "RMSE" "ItemKNN" = Some (PyFloat i)
          /\ metric_value t "RMSE" "UserKNN" = Some (PyFloat u)
          /\ float_lt s i = true /\ float_lt i u = true)
  /\ (forall c, In c models ->
        exists ml y,
          metric_value condensed_transposed_frame "RMSE" c = Some (PyFloat ml)
          /\ metric_value fairness_yelp_frame "RMSE" c = Some (PyFloat y)
          /\ float_lt ml y = true)
  /\ (contains "SVD++ is most accurate (0.9287)"
        (nth 19 discussion_markdown EmptyString) = true
      /\ contains "RMSE is consistently **higher for female users** across models"
           (nth 20 discussion_markdown EmptyString) = true
      /\ metric_value formatted_table_shown "RMSE" "SVD++"
         = Some (PyStr "0.9287")).
Proof.
  split; [|split; [|split]].
  - intros c Hc. simpl in Hc.
    destruct Hc as [<-|[<-|[<-|[]]]];
      eexists; eexists; repeat split; vm_compute; reflexivity.
  - intros t Ht. simpl in Ht.
    destruct Ht as [<-|[<-|[]]];
      eexists; eexists; eexists; repeat split; vm_compute; reflexivity.
  - intros c Hc. simpl in Hc.
    destruct Hc as [<-|[<-|[<-|[]]]];
      eexists; eexists; repeat split; vm_compute; reflexivity.
  - repeat split; vm_compute; reflexivity.
Qed.

Lemma X11_witness :
  exists f m,
    metric_value condensed_transposed_frame "RMSE (Female)" "UserKNN"
    = Some (PyFloat f)
    /\ metric_value condensed_transposed_frame "RMSE (Male)" "UserKNN"
       = Some (PyFloat m)
    /\ float_lt m f = true.
Proof.
  apply (proj1 X11_rmse_observations "UserKNN"%string).
  simpl. right. left. reflexivity.
Defined.

(** ** Order of the shown numbers *)

Section Order.

Lemma digits2_pos_bounds (m : positive) :
  2 ^ (Z.pos (digits2_pos m) - 1) <= Z.pos m < 2 ^ Z.pos (digits2_pos m).
Proof.
  induction m as [p IH|p IH|]; cbn [digits2_pos].
  - rewrite Pos2Z.inj_succ.
    replace (Z.succ (Z.pos (digits2_pos p)) - 1)
      with (Z.succ (Z.pos (digits2_pos p) - 1)) by lia.
    rewrite !Z.pow_succ_r by lia. lia.
  - rewrite Pos2Z.inj_succ.
    replace (Z.succ (Z.pos (digits2_pos p)) - 1)
      with (Z.succ (Z.pos (digits2_pos p) - 1)) by lia.
    rewrite !Z.pow_succ_r by lia. lia.
  - simpl. lia.
Qed.

(** In a canonical binary64 float the exponent is at least [emin] and the
    mantissa has at most 53 bits, exactly 53 above [emin]. *)
Lemma canonical_mantissa_bounds (m : positive) (e : Z) :
  canonical_mantissa prec emax m e = true ->
  -1074 <= e /\ Z.pos m < 2 ^ 53 /\ (-1074 < e -> 2 ^ 52 <= Z.pos m).
Proof.
  unfold canonical_mantissa, fexp, emin, prec, emax. intros H.
  apply Z.eqb_eq in H.
  pose proof (digits2_pos_bounds m) as [Hlo Hhi].
  set (d := Z.pos (digits2_pos m)) in *.
  assert (Hd : 0 < d) by (unfold d; lia).
  split; [lia|]. split.
  - assert (d <= 53) by lia.
    eapply Z.lt_le_trans; [exact Hhi|].
    apply Z.pow_le_mono_r; lia.
  - intros He. assert (d = 53) by lia.
    replace 52 with (d - 1) by lia. exact Hlo.
Qed.

(** The order of two valid positive floats, on their exact values. *)
Lemma float_le_values (m1 m2 : positive) (e1 e2 : Z) :
  valid_binary prec emax (S754_finite false m1 e1) = true ->
  valid_binary prec emax (S754_finite false m2 e2) = true ->
  float_le (S754_finite false m1 e1) (S754_finite false m2 e2) = true ->
  e1 <= e2 /\ Z.pos m1 <= Z.pos m2 * 2 ^ (e2 - e1).
Proof.
  unfold valid_binary, bounded. intros H1 H2 Hle.
  apply andb_prop in H1 as [H1 _]. apply andb_prop in H2 as [H2 _].
  apply canonical_mantissa_bounds in H1 as (Hmin1 & Hhi1 & _).
  apply canonical_mantissa_bounds in H2 as (_ & _ & Hlo2).
  unfold float_le, SFleb, SFcompare in Hle.
  destruct (e1 ?= e2) eqn:E.
  - apply Z.compare_eq in E. subst e2. split; [lia|].
    rewrite Z.sub_diag, Z.pow_0_r, Z.mul_1_r.
    change (Pos.compare_cont Eq m1 m2) with (Pos.compare m1 m2) in Hle.
    destruct (Pos.compare m1 m2) eqn:C; try discriminate Hle.
    + apply Pos.compare_eq in C. subst. apply Z.le_refl.
    + apply Pos.compare_lt_iff in C. apply Z.lt_le_incl.
      apply Pos2Z.pos_lt_pos. exact C.
  - rewrite Z.compare_lt_iff in E. split; [lia|].
    specialize (Hlo2 ltac:(lia)).
    assert (Hp : 2 ^ 1 <= 2 ^ (e2 - e1)) by (apply Z.pow_le_mono_r; lia).
    change (2 ^ 1) with 2 in Hp.
    assert (Hc : 2 ^ 53 = 2 ^ 52 * 2) by reflexivity.
    assert (Hm : 2 ^ 52 * 2 <= Z.pos m2 * 2 ^ (e2 - e1))
      by (apply Z.mul_le_mono_nonneg; lia).
    lia.
  - discriminate Hle.
Qed.

(** The rounding behind [scaled4], uniformly in the sign of the exponent:
    [n] is within half a unit of [V / D], a tie going to the even [n]. *)
Lemma scaled4_bound (m : positive) (e : Z) :
  let D := 2 ^ Z.max (- e) 0 in
  let V := Z.pos m * 10000 * 2 ^ Z.max e 0 in
  0 < D
  /\ 2 * Z.abs (V - scaled4 m e * D) <= D
  /\ (2 * Z.abs (V - scaled4 m e * D) = D -> Z.even (scaled4 m e) = true).
Proof.
  intros D V. unfold D, V, scaled4.
  destruct (0 <=? e) eqn:E.
  - apply Z.leb_le in E.
    rewrite (Z.max_r (- e) 0), (Z.max_l e 0) by lia.
    rewrite Z.pow_0_r. split; [lia|]. split; [lia|]. intros H. lia.
  - apply Z.leb_gt in E.
    rewrite (Z.max_l (- e) 0), (Z.max_r e 0) by lia.
    rewrite Z.pow_0_r, Z.mul_1_r.
    assert (Hd : 0 < 2 ^ (- e)) by (apply Z.pow_pos_nonneg; lia).
    split; [exact Hd|]. apply round_half_even_bound. exact Hd.
Qed.

(** Rounding to the nearest, ties to even, keeps the order. *)
Lemma rounding_monotone (A B D1 D2 n1 n2 : Z) :
  0 < D1 -> 0 < D2 ->
  2 * Z.abs (A - n1 * D1) <= D1 ->
  (2 * Z.abs (A - n1 * D1) = D1 -> Z.even n1 = true) ->
  2 * Z.abs (B - n2 * D2) <= D2 ->
  (2 * Z.abs (B - n2 * D2) = D2 -> Z.even n2 = true) ->
  A * D2 <= B * D1 ->
  n1 <= n2.
Proof.
  intros HD1 HD2 H1 T1 H2 T2 Hle.
  destruct (Z_le_gt_dec n1 n2) as [Hok|Hgt]; [exact Hok|exfalso].
  assert (Ha : (2 * n1 - 1) * D1 <= 2 * A) by lia.
  assert (Hb : 2 * B <= (2 * n2 + 1) * D2) by lia.
  assert (Hn : (2 * n2 + 1) * D1 <= (2 * n1 - 1) * D1) by nia.
  assert (Hc1 : (2 * n2 + 1) * D1 * D2 <= 2 * A * D2) by nia.
  assert (Hc2 : 2 * B * D1 <= (2 * n2 + 1) * D2 * D1) by nia.
  assert (He : 2 * A * D2 = (2 * n2 + 1) * D1 * D2) by nia.
  assert (HeA : 2 * A = (2 * n2 + 1) * D1) by nia.
  assert (Hn1 : n1 = n2 + 1) by nia.
  assert (HeB : 2 * B * D1 = (2 * n2 + 1) * D2 * D1) by nia.
  assert (HeB' : 2 * B = (2 * n2 + 1) * D2) by nia.
  assert (E1 : Z.even n1 = true) by (apply T1; lia).
  assert (E2 : Z.even n2 = true) by (apply T2; lia).
  subst n1. replace (n2 + 1) with (Z.succ n2) in E1 by lia.
  rewrite Z.even_succ, <- Z.negb_even, E2 in E1. discriminate E1.
Qed.

End Order.

(** X12.  The table never inverts an order when it rounds.  For two valid
    positive binary64 floats with [x <= y], the number shown for [x] is at
    most the number shown for [y]; hence when the table shows a strictly
    smaller number for one value than for another, the first value is the
    strictly smaller float. *)
Theorem X12_display_preserves_order (m1 m2 : positive) (e1 e2 : Z) :
  valid_binary prec emax (S754_finite false m1 e1) = true ->
  valid_binary prec emax (S754_finite false m2 e2) = true ->
  float_le (S754_finite false m1 e1) (S754_finite false m2 e2) = true ->
  exists n1 n2,
    read_4dp (float_format_4f (S754_finite false m1 e1)) = Some (false, n1)
    /\ read_4dp (float_format_4f (S754_finite false m2 e2)) = Some (false, n2)
    /\ n1 <= n2.
Proof.
  intros V1 V2 Hle.
  exists (scaled4 m1 e1), (scaled4 m2 e2).
  split; [apply read_4dp_format_finite|].
  split; [apply read_4dp_format_finite|].
  destruct (float_le_values m1 m2 e1 e2 V1 V2 Hle) as [He Hm].
  destruct (scaled4_bound m1 e1) as (HD1 & HB1 & HT1).
  destruct (scaled4_bound m2 e2) as (HD2 & HB2 & HT2).
  apply (rounding_monotone
           (Z.pos m1 * 10000 * 2 ^ Z.max e1 0)
           (Z.pos m2 * 10000 * 2 ^ Z.max e2 0)
           (2 ^ Z.max (- e1) 0) (2 ^ Z.max (- e2) 0)
           _ _ HD1 HD2 HB1 HT1 HB2 HT2).
  (* the exact values, brought to a common denominator *)
  set (a := Z.max e1 0 + Z.max (- e2) 0).
  assert (Ha : 0 <= a) by (unfold a; lia).
  assert (H1 : 2 ^ Z.max e1 0 * 2 ^ Z.max (- e2) 0 = 2 ^ a)
    by (unfold a; rewrite Z.pow_add_r by lia; reflexivity).
  assert (H2 : 2 ^ Z.max e2 0 * 2 ^ Z.max (- e1) 0 = 2 ^ (e2 - e1) * 2 ^ a).
  { rewrite <- !Z.pow_add_r by lia. f_equal. unfold a. lia. }
  assert (Hpa : 0 < 2 ^ a) by (apply Z.pow_pos_nonneg; lia).
  transitivity (Z.pos m1 * 10000 * 2 ^ a);
    [apply Z.eq_le_incl; rewrite <- H1; ring|].
  transitivity (Z.pos m2 * 2 ^ (e2 - e1) * 10000 * 2 ^ a).
  - apply Z.mul_le_mono_nonneg_r; [lia|].
    apply Z.mul_le_mono_nonneg_r; [lia | exact Hm].
  - apply Z.eq_le_incl.
    replace (Z.pos m2 * 10000 * 2 ^ Z.max e2 0 * 2 ^ Z.max (- e1) 0)
      with (Z.pos m2 * 10000 * (2 ^ Z.max e2 0 * 2 ^ Z.max (- e1) 0)) by ring.
    rewrite H2. ring.
Qed.

Lemma X12_witness :
  float_lit 9287 4 = S754_finite false 8364985947877959 (-53)
  /\ float_lit 9738 4 = S754_finite false 8771210634266778 (-53)
  /\ exists n1 n2,
       read_4dp (float_format_4f (float_lit 9287 4)) = Some (false, n1)
       /\ read_4dp (float_format_4f (float_lit 9738 4)) = Some (false, n2)
       /\ n1 <= n2.
Proof.
  assert (H1 : float_lit 9287 4 = S754_finite false 8364985947877959 (-53))
    by (vm_compute; reflexivity).
  assert (H2 : float_lit 9738 4 = S754_finite false 8771210634266778 (-53))
    by (vm_compute; reflexivity).
  split; [exact H1|]. split; [exact H2|].
  rewrite H1, H2.
  apply (X12_display_preserves_order
           8364985947877959 8771210634266778 (-53) (-53));
    vm_compute; reflexivity.
Defined.

(** X9.  The cell can be run again.  When it has run without raising, a
    second run does not raise either: it binds [condensed_transposed],
    [formatted_table] and [fairness_yelp] to the same three tables as the
    first run, displays the same two tables once more, leaves every frame
    that existed as it was, and rebinds none of the variables the cell
    does not assign. *)
Theorem X9_cell_can_be_run_again (st st1 : state) :
  code_cell st = Ok (tt, st1) ->
  exists st2,
    code_cell st1 = Ok (tt, st2)
    /\ (frame_of "condensed_transposed" st1 = Some condensed_transposed_frame
        /\ frame_of "condensed_transposed" st2
           = Some condensed_transposed_frame)
    /\ (frame_of "formatted_table" st1 = Some formatted_table_shown
        /\ frame_of "formatted_table" st2 = Some formatted_table_shown)
    /\ (frame_of "fairness_yelp" st1 = Some fairness_yelp_frame
        /\ frame_of "fairness_yelp" st2 = Some fairness_yelp_frame)
    /\ displayed_tables st2
       = displayed_tables st1 ++ [formatted_table_shown; fairness_yelp_frame]
    /\ (forall k o, heap st1 !! k = Some o -> heap st2 !! k = Some o)
    /\ (forall x,
          ~ In x [ "condensed_transposed"; "formatted_table"; "metrics";
                   "svdpp"; "itemknn"; "userknn"; "fairness_yelp" ]%string ->
          env st2 !! x = env st1 !! x).
Proof.
  intros Hrun.
  destruct (code_cell_from_state st)
    as (st1' & Hrun1 & Hc1 & Hf1 & Hy1 & _ & _ & _ & _).
  rewrite Hrun in Hrun1. injection Hrun1 as <-.
  destruct (code_cell_from_state st1)
    as (st2 & Hrun2 & Hc2 & Hf2 & Hy2 & Hout & _ & Hheap & Henv).
  exists st2. split; [exact Hrun2|].
  split; [split; assumption|]. split; [split; assumption|].
  split; [split; assumption|].
  split.
  { unfold displayed_tables. rewrite Hout, flat_map_app. reflexivity. }
  split; [exact Hheap|].
  intros x Hx. apply Henv; intros ->; apply Hx; simpl; tauto.
Qed.

Lemma X9_witness :
  exists st1 st2,
    code_cell initial = Ok (tt, st1)
    /\ code_cell st1 = Ok (tt, st2)
    /\ frame_of "formatted_table" st2 = Some formatted_table_shown
    /\ displayed_tables st2
       = displayed_tables st1 ++ [formatted_table_shown; fairness_yelp_frame].
Proof.
  destruct (code_cell initial) as [[[] st1]|] eqn:H1;
    [|vm_compute in H1; discriminate H1].
  destruct (X9_cell_can_be_run_again initial st1 H1)
    as (st2 & Hrun & _ & (_ & Hf) & _ & Hd & _).
  exists st1, st2. split; [reflexivity|]. split; [exact Hrun|].
  split; [exact Hf | exact Hd].
Defined.
